(** * Shallow embedding of [src/main.py] (spimex bulletin crawler)

    The development follows the program top-down in reverse: first the
    spreadsheet extraction [get_market_price], then the listing parser
    view of a page, then the page cache [get_html_page], the download
    [download_xls], the per-page coroutine [download_and_analyze_report]
    and finally the controller loop [get_records] with its event loop.

    Effects are modelled explicitly: the file system (HTML cache folder and
    reports folder), the accumulated [records] list and a trace of
    observable events (task creation/completion, semaphore objects,
    network operations) are threaded through a small state-and-exception
    monad [M]. *)

From stdpp Require Import base gmap strings list pretty.
From Stdlib Require Import QArith ZArith.

Close Scope Q_scope.
Open Scope string_scope.
Open Scope nat_scope.
Set Warnings "-register-all".


(* ------------------------------------------------------------------ *)
(** ** Python values stored in spreadsheet cells *)

(** xlrd's [cell_value] returns a [str] for text cells, a [float] for
    number and date cells, an [int] for boolean and error cells, and the
    empty string [''] for empty and blank cells. *)
Inductive pyval :=
| PStr (s : string)
| PFloat (q : Q)
| PInt (z : Z).

(** Python truthiness ([if not price]). *)
Definition truthy (v : pyval) : bool :=
  match v with
  | PStr s => negb (String.eqb s "")
  | PFloat q => negb (Qeq_bool q 0%Q)
  | PInt z => negb (Z.eqb z 0)
  end.

(** Python [==] between a cell value and a [str]: only a [str] with the
    same characters compares equal. *)
Definition py_eq_str (v : pyval) (s : string) : bool :=
  match v with
  | PStr t => String.eqb t s
  | _ => false
  end.

(** [s in values] for a Python list [values]. *)
Definition py_in (s : string) (values : list pyval) : bool :=
  existsb (fun v => py_eq_str v s) values.

(* ------------------------------------------------------------------ *)
(** ** xlrd sheets *)

(** A sheet as xlrd loads it: the rows as stored in the file. xlrd's
    [ncols] is the length of the longest row, and (with the default
    [ragged_rows=False]) shorter rows are padded with empty cells, whose
    value is [''].  *)
Record sheet := mk_sheet { sheet_rows : list (list pyval) }.

Definition empty_cell : pyval := PStr "".

Definition nrows (sh : sheet) : nat := length (sheet_rows sh).

Definition ncols (sh : sheet) : nat :=
  fold_right (fun r m => Nat.max (length r) m) 0 (sheet_rows sh).

(** [sheet.cell_value(i, j)] *)
Definition cell_value (sh : sheet) (i j : nat) : pyval :=
  nth j (nth i (sheet_rows sh) []) empty_cell.

(** [sheet.row_values(i)]: the padded row [i]. *)
Definition row_values (sh : sheet) (i : nat) : list pyval :=
  map (fun j => cell_value sh i j) (seq 0 (ncols sh)).

(** [sheet.col_values(j)]: column [j] over all rows. *)
Definition col_values (sh : sheet) (j : nat) : list pyval :=
  map (fun i => cell_value sh i j) (seq 0 (nrows sh)).

(** [get_market_price] after [open_workbook] / [sheet_by_index(0)]:
<<
    price: str = ""
    colindex = None
    for i in range(sheet.ncols):
        if colname in sheet.col_values(i):
            colindex = i
    if colindex is not None:
        for i in range(sheet.nrows):
            if rowname in sheet.row_values(i):
                price = sheet.cell_value(i, colindex)
    return price
>> *)
Definition find_colindex (sh : sheet) (colname : string) : option nat :=
  fold_left (fun colindex i =>
               if py_in colname (col_values sh i) then Some i else colindex)
            (seq 0 (ncols sh)) None.

Definition scan_rows (sh : sheet) (rowname : string) (colindex : nat) : pyval :=
  fold_left (fun price i =>
               if py_in rowname (row_values sh i)
               then cell_value sh i colindex else price)
            (seq 0 (nrows sh)) (PStr "").

Definition get_market_price_sheet (sh : sheet) (rowname colname : string) : pyval :=
  match find_colindex sh colname with
  | Some colindex => scan_rows sh rowname colindex
  | None => PStr ""
  end.

(** The constants of [download_and_analyze_report]. *)
Definition target_col : string := "Рыночная".
Definition target_row : string := "A592UFM060F".


(* ------------------------------------------------------------------ *)
(** ** Listing pages as BeautifulSoup sees them *)

(** Children of a tag: text nodes ([NavigableString]) and elements. *)
Inductive node :=
| NText (s : string)
| NElem (name : string) (children : list node).

(** [element.find("a", href=True)]: the first anchor with an [href]. *)
Record anchor := mk_anchor {
  a_href : string;
  a_contents : list node
}.

(** A [div] of the listing: its CSS classes, the result of
    [find("a", href=True)] and the text of [find("span")] ([None] when the
    search returns [None]). *)
Record div := mk_div {
  d_classes : list string;
  d_anchor : option anchor;
  d_span : option string
}.

(** An HTML document, as the sequence of its [div] elements in document
    order (BeautifulSoup's parse of the page text). *)
Definition html := list div.

(** [get_html_elements(data, css_class)]:
    [soup.findAll("div", {"class": css_class})]. *)
Definition get_html_elements (data : html) (css_class : string) : list div :=
  filter (fun d => existsb (String.eqb css_class) (d_classes d)) data.

(** [x in tag]: bs4's [Tag.__contains__] is [x in self.contents]; a
    [NavigableString] equals a [str] with the same characters, a [Tag]
    never equals a [str]. *)
Definition tag_contains (x : string) (tag : anchor) : bool :=
  existsb (fun n => match n with NText t => String.eqb t x | NElem _ _ => false end)
          (a_contents tag).

(* ------------------------------------------------------------------ *)
(** ** Reading a cached page back in text mode *)

(** [aiofiles.open(cache, "r")] reads with universal newlines: every
    ["\r\n"] and every lone ["\r"] of the file comes back as ["\n"]. The
    file holds the text [data] that was written with mode ["w"], which on
    POSIX writes ["\n"] unchanged. *)
Definition cr : Ascii.ascii := Ascii.ascii_of_nat 13.
Definition lf : Ascii.ascii := Ascii.ascii_of_nat 10.

Fixpoint univ_nl (s : string) : string :=
  match s with
  | EmptyString => EmptyString
  | String c r =>
      if Ascii.eqb c cr then
        match r with
        | String c2 r2 =>
            if Ascii.eqb c2 lf then String lf (univ_nl r2)
            else String lf (univ_nl r)
        | EmptyString => String lf EmptyString
        end
      else String c (univ_nl r)
  end.

Fixpoint node_nl (n : node) : node :=
  match n with
  | NText s => NText (univ_nl s)
  | NElem name cs => NElem name (map node_nl cs)
  end.

Definition anchor_nl (a : anchor) : anchor :=
  mk_anchor (univ_nl (a_href a)) (map node_nl (a_contents a)).

(** The parse of the translated text: text nodes, attribute values and the
    span text carry the translated characters. Class tokens are split at
    whitespace, which includes ["\r"], so none of them contains one. *)
Definition div_nl (d : div) : div :=
  mk_div (d_classes d) (option_map anchor_nl (d_anchor d))
         (option_map univ_nl (d_span d)).

Definition html_nl (data : html) : html := map div_nl data.





(* ------------------------------------------------------------------ *)
(** ** [datetime.strptime(date, "%d.%m.%Y")] *)

Definition digit_val (c : Ascii.ascii) : option nat :=
  let n := Ascii.nat_of_ascii c in
  if (48 <=? n) && (n <=? 57) then Some (n - 48) else None.

Fixpoint digits_val_acc (s : string) (acc : nat) : option nat :=
  match s with
  | EmptyString => Some acc
  | String c r =>
      match digit_val c with
      | Some d => digits_val_acc r (acc * 10 + d)
      | None => None
      end
  end.

Fixpoint split_dot (s : string) : list string :=
  match s with
  | EmptyString => [""]
  | String c r =>
      let parts := split_dot r in
      if Ascii.eqb c (Ascii.ascii_of_nat 46) then "" :: parts
      else match parts with
           | p :: ps => String c p :: ps
           | [] => [String c ""]
           end
  end.

Definition leap (y : nat) : bool :=
  (Nat.eqb (y mod 4) 0 && negb (Nat.eqb (y mod 100) 0)) || Nat.eqb (y mod 400) 0.

Definition days_in_month (y m : nat) : nat :=
  match m with
  | 2 => if leap y then 29 else 28
  | 4 | 6 | 9 | 11 => 30
  | _ => 31
  end.

(** The day field of [%d]: [_strptime]'s regex
    [3[01]|[12]\d|0[1-9]|[1-9]| [1-9]], i.e. one or two digits or a space
    followed by a nonzero digit (the range is checked afterwards). *)
Definition day_digits (ds : string) : option nat :=
  match ds with
  | String c (String c2 EmptyString) =>
      if Ascii.eqb c (Ascii.ascii_of_nat 32) then
        match digit_val c2 with
        | Some v => if 1 <=? v then Some v else None
        | None => None
        end
      else digits_val_acc ds 0
  | _ => digits_val_acc ds 0
  end.

(** The date as (year, month, day). [%d] matches one or two digits or a
    space-padded digit, [%m] one or two digits, [%Y] four, and the whole
    string must be consumed; [datetime] then checks the ranges, and any
    failure raises [ValueError]. Digits are the ASCII ones (Python's [\d]
    also takes other Unicode decimal digits). *)
Definition strptime_dmy (s : string) : option (nat * nat * nat) :=
  match split_dot s with
  | [ds; ms; ys] =>
      if (1 <=? String.length ds) && (String.length ds <=? 2)
         && (1 <=? String.length ms) && (String.length ms <=? 2)
         && Nat.eqb (String.length ys) 4
      then match day_digits ds, digits_val_acc ms 0, digits_val_acc ys 0 with
           | Some d, Some m, Some y =>
               if (1 <=? y) && (1 <=? m) && (m <=? 12)
                  && (1 <=? d) && (d <=? days_in_month y m)
               then Some (y, m, d) else None
           | _, _, _ => None
           end
      else None
  | _ => None
  end.

(* ------------------------------------------------------------------ *)
(** ** Program state *)

(** Python exceptions: [ValueError msg] is one of class [ValueError] or a
    subclass (what [except ValueError] catches), [OtherError name] any
    other, by its class name. *)
Inductive exn :=
| ValueError (msg : string)
| OtherError (name : string).

(** Contents of a file of [REPORTS_FOLDER], by what [xlrd.open_workbook]
    makes of it: a workbook (its first sheet), or bytes it rejects, with the
    exception it raises on them ([XLRDError] for an unknown format,
    [BadZipFile] for bytes with a zip signature, [CompDocError] for a broken
    OLE2 file, [UnicodeDecodeError], a [ValueError], for a bad encoding,
    ...). *)
Inductive xls :=
| XlsBook (sh : sheet)
| XlsBad (err : exn).

(** A record dict [{"date", "price", "path"}]. *)
Record record := mk_record {
  rec_date : nat * nat * nat;
  rec_price : pyval;
  rec_path : string
}.

(** What a network operation talks to: a listing page (with its [params])
    or a spreadsheet link. *)
Inductive target :=
| TPage (params : option string)
| TXls (link : string).

(** Observable events, in the order they happen. *)
Inductive event :=
| TaskCreated (count : nat)
| TaskStarted (count : nat)
| TaskFinished (count : nat)
| SemCreated (id : nat) (value : nat)
| SemAcquired (id : nat)
| SemReleased (id : nat)
| NetBegin (t : target)
| NetEnd (t : target).

Record world := mk_world {
  html_cache : gmap nat html;      (* HTML_CACHE/{count}.html *)
  reports : gmap string xls;       (* REPORTS_FOLDER/{name} *)
  records : list record;           (* get_records' local [records] *)
  trace : list event;
  sem_next : nat                   (* identity of the next semaphore object *)
}.

(** The state-and-exception monad. *)
Definition M (A : Type) : Type := world -> (exn + A) * world.

Definition ret {A} (a : A) : M A := fun w => (inr a, w).
Definition raise {A} (e : exn) : M A := fun w => (inl e, w).
Definition bind {A B} (m : M A) (k : A -> M B) : M B :=
  fun w => match m w with
           | (inl e, w') => (inl e, w')
           | (inr a, w') => k a w'
           end.

Notation "x <- m ;; k" := (bind m (fun x => k))
  (at level 100, m at next level, right associativity).
Notation "m ;;; k" := (bind m (fun _ => k))
  (at level 100, right associativity).

(** [try ... except BaseException] as a value, and re-raising it. *)
Definition attempt {A} (m : M A) : M (exn + A) :=
  fun w => let '(r, w') := m w in (inr r, w').
Definition reraise {A} (r : exn + A) : M A :=
  match r with inl e => raise e | inr a => ret a end.

Definition get_world : M world := fun w => (inr w, w).

Definition emit (ev : event) : M unit :=
  fun w => (inr tt, mk_world (html_cache w) (reports w) (records w)
                             (trace w ++ [ev]) (sem_next w)).

Definition write_cache (count : nat) (data : html) : M unit :=
  fun w => (inr tt, mk_world (<[count := data]> (html_cache w)) (reports w)
                             (records w) (trace w) (sem_next w)).

Definition write_report (path : string) (data : xls) : M unit :=
  fun w => (inr tt, mk_world (html_cache w) (<[path := data]> (reports w))
                             (records w) (trace w) (sem_next w)).

(** [path.unlink()]: [FileNotFoundError] when the file is missing. *)
Definition unlink (path : string) : M unit :=
  fun w => match reports w !! path with
           | Some _ => (inr tt, mk_world (html_cache w) (delete path (reports w))
                                        (records w) (trace w) (sem_next w))
           | None => (inl (OtherError "FileNotFoundError"), w)
           end.

Definition set_records (rs : list record) : M unit :=
  fun w => (inr tt, mk_world (html_cache w) (reports w) rs (trace w) (sem_next w)).

(** [asyncio.BoundedSemaphore(value)]: a new semaphore object. *)
Definition new_semaphore (value : nat) : M nat :=
  fun w => (inr (sem_next w),
            mk_world (html_cache w) (reports w) (records w)
                     (trace w ++ [SemCreated (sem_next w) value]) (S (sem_next w))).

(** [async with sema]: acquire a slot of semaphore [id], run the body,
    release the slot on the way out, whether the body raised or not. *)
Definition with_sema {A} (id : nat) (body : M A) : M A :=
  emit (SemAcquired id) ;;;
  r <- attempt body ;;
  emit (SemReleased id) ;;;
  reraise r.

(** [async with session.get(...) as response]: the connection is open
    for the whole body and closed on the way out. *)
Definition with_response {A} (t : target) (body : M A) : M A :=
  emit (NetBegin t) ;;;
  r <- attempt body ;;
  emit (NetEnd t) ;;;
  reraise r.

(** [assert response.status == 200] *)
Definition assert_ok {A} (resp : option A) : M A :=
  match resp with
  | Some a => ret a
  | None => raise (OtherError "AssertionError")
  end.

(* ------------------------------------------------------------------ *)
(** ** The program *)

Section Program.

(** The remote site: the listing page served for the query [params]
    ([None] for any non-200 status), and the spreadsheet served at a link. *)
Variable remote_page : option string -> option html.
Variable remote_xls : string -> option xls.

Definition schema : string := "https://".
Definition domain : string := "spimex.com".
Definition class_to_search : string := "accordeon-inner__item".
Definition text_to_search : string :=
  "Бюллетень по итогам торгов в Секции «Нефтепродукты»".

(** [get_html_page(url, param, count)] *)
Definition get_html_page (param : string) (count : nat) : M html :=
  w <- get_world ;;
  match html_cache w !! count with
  | Some data => ret (html_nl data)
  | None =>
      let params := if String.eqb param "" then None else Some param in
      sema <- new_semaphore 5 ;;
      with_sema sema
        (with_response (TPage params)
           (data <- assert_ok (remote_page params) ;;
            write_cache count data ;;;
            ret data))
  end.

(** [download_xls(link, path)] *)
Definition download_xls (link : string) (path : string) : M unit :=
  sema <- new_semaphore 5 ;;
  data <- with_sema sema
            (with_response (TXls link) (assert_ok (remote_xls link))) ;;
  write_report path data.

(** [get_market_price(path, rowname, colname)] *)
Definition get_market_price (path rowname colname : string) : M pyval :=
  w <- get_world ;;
  match reports w !! path with
  | None => raise (OtherError "FileNotFoundError")
  | Some (XlsBad err) => raise err
  | Some (XlsBook sh) => ret (get_market_price_sheet sh rowname colname)
  end.

Definition append_record (r : record) : M unit :=
  w <- get_world ;;
  set_records (app (records w) [r]).

(** The body of the [for element in elements] loop. *)
Definition process_element (element : div) : M unit :=
  match d_anchor element with
  | None => raise (OtherError "TypeError")     (* [text_to_search in None] *)
  | Some tag =>
      if tag_contains text_to_search tag then
        match d_span element with
        | None => raise (OtherError "AttributeError")   (* [None.text] *)
        | Some date =>
            let path := date ++ ".xls" in
            w <- get_world ;;
            (match reports w !! path with
             | Some _ => ret tt
             | None => download_xls (schema ++ domain ++ a_href tag) path
             end) ;;;
            price <- get_market_price path target_row target_col ;;
            if negb (truthy price) then
              unlink path ;;;
              raise (ValueError "market price is not found")
            else
              match strptime_dmy date with
              | None => raise (ValueError "time data does not match format")
              | Some d => append_record (mk_record d price path)
              end
        end
      else ret tt
  end.

Fixpoint process_elements (elements : list div) : M unit :=
  match elements with
  | [] => ret tt
  | e :: es => process_element e ;;; process_elements es
  end.

(** The coroutine [download_and_analyze_report(url, param, count)]. *)
Definition download_and_analyze_report (param : string) (count : nat) : M unit :=
  data <- get_html_page param count ;;
  process_elements (get_html_elements data class_to_search).

(** The tasks list of [get_records], with each task's state. *)
Inductive status :=
| Pending (param : string)
| Done
| Failed (e : exn).

(** The event loop runs a created task: it starts, runs its coroutine and
    finishes, normally or with an exception stored in the task. *)
Definition run_task (count : nat) (param : string) : M status :=
  emit (TaskStarted count) ;;;
  r <- attempt (download_and_analyze_report param count) ;;
  emit (TaskFinished count) ;;;
  ret (match r with inl e => Failed e | inr _ => Done end).

(** [loop.run_until_complete(asyncio.gather( *tasks))]: the pending tasks
    are run until they finish. A task's coroutine runs as one piece here;
    this is the event loop's behaviour whenever a single task is pending,
    which [crawl_loop] below always ensures: every earlier task is done
    when it runs the new one (see [crawl_loop_S]). *)
Fixpoint run_pending (tasks : list (nat * status)) : M (list (nat * status)) :=
  match tasks with
  | [] => ret []
  | (n, Pending param) :: ts =>
      st <- run_task n param ;;
      ts' <- run_pending ts ;;
      ret ((n, st) :: ts')
  | t :: ts =>
      ts' <- run_pending ts ;;
      ret (t :: ts')
  end.

(** The exception [gather] propagates: the first failed task's. *)
Fixpoint gather_exn (tasks : list (nat * status)) : option exn :=
  match tasks with
  | [] => None
  | (_, Failed e) :: _ => Some e
  | _ :: ts => gather_exn ts
  end.

(** Outcome of the [while True] loop: left by [break], or still running
    when the given number of iterations ran out, with the loop variables
    [page_num], [count] and [tasks] at that point. *)
Inductive loop_result :=
| Broke
| StillRunning (page_num count : nat) (tasks : list (nat * status)).

(** The head of the loop body: [count] has already been incremented;
<<
        if count > 1:
            page_num += 1
            param = f"page-{page_num}"
        else:
            param = ""
>> *)
Definition next_page (page_num count : nat) : nat * string :=
  if 1 <? count then (S page_num, "page-" ++ pretty (S page_num))
  else (page_num, "").

(** The [while True] loop of [get_records], for at most [fuel]
    iterations. [page_num], [count] and [tasks] are its local variables. *)
Fixpoint crawl_loop (fuel : nat) (page_num count : nat)
         (tasks : list (nat * status)) : M loop_result :=
  match fuel with
  | 0 => ret (StillRunning page_num count tasks)
  | S fuel' =>
      let count := S count in
      let '(page_num, param) := next_page page_num count in
      emit (TaskCreated count) ;;;
      let tasks := app tasks [(count, Pending param)] in
      tasks <- run_pending tasks ;;
      match gather_exn tasks with
      | Some (ValueError _) => ret Broke               (* except ValueError: break *)
      | Some e => raise e
      | None => crawl_loop fuel' page_num count tasks
      end
  end.

(** [get_records()]: [Some records] once the loop is left by [break]
    ([loop.close(); return records]); [None] while it is still running
    after [fuel] iterations. Other exceptions propagate. *)
Definition get_records (fuel : nat) : M (option (list record)) :=
  set_records [] ;;;
  r <- crawl_loop fuel 0 0 [] ;;
  match r with
  | Broke => w <- get_world ;; ret (Some (records w))
  | StillRunning _ _ _ => ret None
  end.

End Program.
(* ------------------------------------------------------------------ *)
(** ** Notions used in the statements *)

(** From here on [++] is list concatenation; strings are joined with [+:+]. *)
Open Scope list_scope.

(** [colname in sheet.col_values(i)] and [rowname in sheet.row_values(i)]. *)
Definition col_has (sh : sheet) (colname : string) (i : nat) : bool :=
  py_in colname (col_values sh i).
Definition row_has (sh : sheet) (rowname : string) (i : nat) : bool :=
  py_in rowname (row_values sh i).

(** [i] is the last index below [n] satisfying [P]. *)
Definition last_match (P : nat -> bool) (n i : nat) : Prop :=
  i < n /\ P i = true /\ forall j, i < j < n -> P j = false.

(** The sheet of the spec's example: a header row and one data row. *)
Definition sample_sheet : sheet :=
  mk_sheet [[PStr "A"; PStr "Рыночная"; PStr "B"];
            [PStr "x"; PStr "A592UFM060F"; PStr "42.5"]].

(** The trace of one network operation that takes a slot of the fresh
    semaphore [s]. *)
Definition net_events (s : nat) (t : target) : list event :=
  [SemCreated s 5; SemAcquired s; NetBegin t; NetEnd t; SemReleased s].

(** [params] of [get_html_page] for [param]. *)
Definition page_params (param : string) : option string :=
  if String.eqb param "" then None else Some param.


(** A spreadsheet file whose extraction succeeds: a workbook in which the
    target cell value is truthy. *)
Definition good_file (x : xls) : Prop :=
  exists sh, x = XlsBook sh /\
             truthy (get_market_price_sheet sh target_row target_col) = true.


(** Every record's spreadsheet is on disk with a successful extraction. *)
Definition records_ok (w : world) : Prop :=
  forall rec, In rec (records w) ->
    exists x, reports w !! rec_path rec = Some x /\ good_file x.

(** Page-cache entries are kept. *)
Definition cache_incl (w w' : world) : Prop :=
  forall n d, html_cache w !! n = Some d -> html_cache w' !! n = Some d.

(** Files with a successful extraction are kept, unchanged. *)
Definition good_kept (w w' : world) : Prop :=
  forall p x, good_file x -> reports w !! p = Some x -> reports w' !! p = Some x.

(** [w'] extends the trace of [w] by a segment satisfying [P]. *)
Definition trace_ext (P : list event -> Prop) (w w' : world) : Prop :=
  exists tr, trace w' = trace w ++ tr /\ P tr.

Definition task_event (ev : event) : bool :=
  match ev with
  | TaskCreated _ | TaskStarted _ | TaskFinished _ => true
  | _ => false
  end.

Definition no_task_events (tr : list event) : Prop :=
  Forall (fun ev => task_event ev = false) tr.

(** Number of network operations in flight after [tr], starting with [d]
    in flight; [None] as soon as a second one would be opened while one is
    in flight (or a closing has no opening). *)
Fixpoint net_depth (d : nat) (tr : list event) : option nat :=
  match tr with
  | [] => Some d
  | NetBegin _ :: r => if Nat.eqb d 0 then net_depth 1 r else None
  | NetEnd _ :: r => match d with 0 => None | S d' => net_depth d' r end
  | _ :: r => net_depth d r
  end.

(** At every point of [tr] at most one network operation is in flight, and
    none is at the end. *)
Definition one_in_flight (tr : list event) : Prop := net_depth 0 tr = Some 0.

(** An [M] computation keeps the relation [R] between the world before and
    the world after. *)
Definition preserves (R : world -> world -> Prop) {A} (m : M A) : Prop :=
  forall w r w', m w = (r, w') -> R w w'.

(** The relation kept by a task body and the one kept by the whole loop. *)
Definition R_body (w w' : world) : Prop :=
  cache_incl w w' /\ good_kept w w' /\ (records_ok w -> records_ok w') /\
  trace_ext (fun tr => no_task_events tr /\ one_in_flight tr) w w'.

Definition R_loop (w w' : world) : Prop :=
  cache_incl w w' /\ good_kept w w' /\ (records_ok w -> records_ok w') /\
  trace_ext one_in_flight w w'.

(** The world after [emit ev]. *)
Definition add_event (w : world) (ev : event) : world :=
  mk_world (html_cache w) (reports w) (records w) (trace w ++ [ev]) (sem_next w).

(** The task state [run_task] records for the outcome of the coroutine. *)
Definition status_of (r : exn + unit) : status :=
  match r with inl e => Failed e | inr _ => Done end.

Definition task_done (t : nat * status) : Prop := snd t = Done.

(** The world after [records = []] at the start of [get_records]. *)
Definition reset_records (w : world) : world :=
  mk_world (html_cache w) (reports w) [] (trace w) (sem_next w).

(** ** Concrete runs *)

(** A listing block of the wanted bulletin type, dated [date]. *)
Definition bulletin (date : string) : div :=
  mk_div [class_to_search]
         (Some (mk_anchor ("/upload/" +:+ date +:+ ".xls") [NText text_to_search]))
         (Some date).

Definition bulletin_link (date : string) : string :=
  schema +:+ domain +:+ "/upload/" +:+ date +:+ ".xls".

(** A bulletin whose target cell holds [v]. *)
Definition price_sheet (v : pyval) : sheet :=
  mk_sheet [[PStr "Код"; PStr "Рыночная"]; [PStr "A592UFM060F"; v]].

(** A bulletin without the tracked commodity. *)
Definition no_target_sheet : sheet :=
  mk_sheet [[PStr "Код"; PStr "Рыночная"]; [PStr "A100ANK060F"; PStr "40.0"]].

(** Three listing pages with one bulletin each, then empty pages. *)
Definition listing3 (params : option string) : option html :=
  match params with
  | None => Some [bulletin "10.01.2023"]
  | Some p =>
      if String.eqb p "page-1" then Some [bulletin "09.01.2023"]
      else if String.eqb p "page-2" then Some [bulletin "08.01.2023"]
      else Some []
  end.




(** Spreadsheets for [listing3]: the one of page 3 is [last], the others
    hold the price "42.5". *)
Definition bulletins3 (last : sheet) (link : string) : option xls :=
  if String.eqb link (bulletin_link "08.01.2023") then Some (XlsBook last)
  else Some (XlsBook (price_sheet (PStr "42.5"))).

Definition empty_world : world := mk_world ∅ ∅ [] [] 0.

(** The world after the first two iterations of [listing3] and after the
    page fetch of the third. *)
Definition run3_after2 (last : sheet) : world :=
  snd (crawl_loop listing3 (bulletins3 last) 2 0 0 [] (reset_records empty_world)).

Definition run3_page3 (last : sheet) : world :=
  snd (get_html_page listing3 "page-2" 3
         (add_event (add_event (run3_after2 last) (TaskCreated 3)) (TaskStarted 3))).

(** Task events of a trace in the order of a sequential loop: the task
    [S last] is the only one that may be created, [last] being the task
    finished most recently. *)
Fixpoint tasks_in_order (last : nat) (tr : list event) : bool :=
  match tr with
  | [] => true
  | TaskCreated n :: r => Nat.eqb n (S last) && tasks_in_order last r
  | TaskFinished n :: r => tasks_in_order n r
  | _ :: r => tasks_in_order last r
  end.

Fixpoint last_finished (last : nat) (tr : list event) : nat :=
  match tr with
  | [] => last
  | TaskFinished n :: r => last_finished n r
  | _ :: r => last_finished last r
  end.





(** A world with a cached spreadsheet of price "42.5" for [date]. *)
Definition cached_world (date : string) : world :=
  mk_world ∅ {[date +:+ ".xls" := XlsBook (price_sheet (PStr "42.5"))]} [] [] 0.

(** A listing whose every page holds one bulletin dated [date]; every
    spreadsheet holds the price "42.5". *)
Definition listing_dated (date : string) (params : option string) : option html :=
  Some [bulletin date].

Definition good_xls (link : string) : option xls := Some (XlsBook (price_sheet (PStr "42.5"))).

(** A listing whose first page holds no bulletin; page 1 holds one. *)
Definition listing_empty_first (params : option string) : option html :=
  match params with
  | None => Some []
  | Some _ => Some [bulletin "08.01.2023"]
  end.

(** A record as [download_and_analyze_report] builds it: a truthy price,
    the path [{date}.xls] and the date parsed from the same [date]. *)
Definition record_wf (rec : record) : Prop :=
  truthy (rec_price rec) = true /\
  exists date, rec_path rec = date +:+ ".xls" /\ strptime_dmy date = Some (rec_date rec).

(** [records] only grows, by appending such records. *)
Definition rec_step (w w' : world) : Prop :=
  exists new, records w' = records w ++ new /\ Forall record_wf new.

(** The pages [lo..hi] are in the page cache, and every bulletin block of
    those pages, as read back from the cache, finds its spreadsheet in the
    reports folder. *)
Definition site_cached (lo hi : nat) (w : world) : Prop :=
  forall n, lo <= n <= hi ->
    exists d, html_cache w !! n = Some d /\
      forall el tag date, In el (get_html_elements (html_nl d) class_to_search) ->
        d_anchor el = Some tag -> d_span el = Some date ->
        is_Some (reports w !! (date +:+ ".xls")).

(* ================================================================== *)
(** * Proofs *)

(** ** Extraction *)

Section Scan.
Context {A : Type} (P : nat -> bool) (f : nat -> A).

Lemma scan_none (init : A) (n : nat) :
  (forall i, i < n -> P i = false) ->
  fold_left (fun acc i => if P i then f i else acc) (seq 0 n) init = init.
Proof.
  induction n as [|n IH]; intros H; [reflexivity|].
  rewrite seq_S, fold_left_app. simpl.
  rewrite IH by (intros i Hi; apply H; lia).
  rewrite (H n) by lia. reflexivity.
Qed.

Lemma scan_last (init : A) (n i : nat) :
  last_match P n i ->
  fold_left (fun acc i => if P i then f i else acc) (seq 0 n) init = f i.
Proof.
  revert i. induction n as [|n IH]; intros i (Hi & HP & Hlast); [lia|].
  rewrite seq_S, fold_left_app. simpl.
  destruct (P n) eqn:Hn.
  - destruct (Nat.eq_dec i n) as [->|Hne]; [reflexivity|].
    rewrite (Hlast n) in Hn by lia. discriminate.
  - assert (i <> n) by (intros ->; congruence).
    apply IH. repeat split; [lia|assumption|].
    intros j Hj. apply Hlast. lia.
Qed.

Lemma last_or_none (n : nat) :
  (forall i, i < n -> P i = false) \/ exists i, last_match P n i.
Proof.
  induction n as [|n IH]; [left; intros; lia|].
  destruct (P n) eqn:Hn.
  - right. exists n. repeat split; [lia|assumption|]. intros; lia.
  - destruct IH as [Hnone | (i & Hi & HP & Hlast)].
    + left. intros i Hi. destruct (Nat.eq_dec i n) as [->|]; [assumption|].
      apply Hnone. lia.
    + right. exists i. repeat split; [lia|assumption|].
      intros j Hj. destruct (Nat.eq_dec j n) as [->|]; [assumption|].
      apply Hlast. lia.
Qed.

End Scan.

Lemma find_colindex_last (sh : sheet) (colname : string) (ci : nat) :
  last_match (col_has sh colname) (ncols sh) ci ->
  find_colindex sh colname = Some ci.
Proof. intros H. exact (scan_last (col_has sh colname) Some None _ _ H). Qed.

Lemma find_colindex_none (sh : sheet) (colname : string) :
  (forall i, i < ncols sh -> col_has sh colname i = false) ->
  find_colindex sh colname = None.
Proof. intros H. exact (scan_none (col_has sh colname) Some None _ H). Qed.

Lemma scan_rows_last (sh : sheet) (rowname : string) (ci ri : nat) :
  last_match (row_has sh rowname) (nrows sh) ri ->
  scan_rows sh rowname ci = cell_value sh ri ci.
Proof.
  intros H. exact (scan_last (row_has sh rowname) (fun i => cell_value sh i ci)
                     (PStr "") _ _ H).
Qed.

Lemma scan_rows_none (sh : sheet) (rowname : string) (ci : nat) :
  (forall i, i < nrows sh -> row_has sh rowname i = false) ->
  scan_rows sh rowname ci = PStr "".
Proof.
  intros H. exact (scan_none (row_has sh rowname) (fun i => cell_value sh i ci)
                     (PStr "") _ H).
Qed.

Lemma get_market_price_sheet_last (sh : sheet) (rowname colname : string) (ci ri : nat) :
  last_match (col_has sh colname) (ncols sh) ci ->
  last_match (row_has sh rowname) (nrows sh) ri ->
  get_market_price_sheet sh rowname colname = cell_value sh ri ci.
Proof.
  intros Hc Hr. unfold get_market_price_sheet.
  rewrite (find_colindex_last _ _ _ Hc). apply scan_rows_last, Hr.
Qed.

(** C5 (amended): [get_market_price] scans every column and keeps the last
    column index whose values contain [colname], then scans every row and
    keeps the last row whose values contain [rowname]; the result is the
    cell at that row and column. *)
Theorem get_market_price_scan (sh : sheet) (rowname colname : string) (ci ri : nat) :
  last_match (col_has sh colname) (ncols sh) ci ->
  last_match (row_has sh rowname) (nrows sh) ri ->
  get_market_price_sheet sh rowname colname = cell_value sh ri ci.
Proof. apply get_market_price_sheet_last. Qed.

Lemma get_market_price_scan_witness :
  last_match (col_has sample_sheet target_col) (ncols sample_sheet) 1 /\
  last_match (row_has sample_sheet target_row) (nrows sample_sheet) 1 /\
  get_market_price_sheet sample_sheet target_row target_col = cell_value sample_sheet 1 1.
Proof.
  assert (Hc : last_match (col_has sample_sheet target_col) (ncols sample_sheet) 1).
  { split; [vm_compute; lia|]. split; [vm_compute; reflexivity|].
    intros j Hj. assert (j = 2) as -> by (vm_compute in Hj; lia). vm_compute. reflexivity. }
  assert (Hr : last_match (row_has sample_sheet target_row) (nrows sample_sheet) 1).
  { split; [vm_compute; lia|]. split; [vm_compute; reflexivity|].
    intros j Hj. vm_compute in Hj. lia. }
  split; [exact Hc|]. split; [exact Hr|].
  exact (get_market_price_scan sample_sheet target_row target_col 1 1 Hc Hr).
Defined.

(** C5 (counterexample): on the sheet with the header row
    ["A"; "Рыночная"; "B"] and the row ["x"; "A592UFM060F"; "42.5"], the
    selected column is 1 and the result is "A592UFM060F", not "42.5". *)
Lemma get_market_price_example_cex :
  get_market_price_sheet sample_sheet target_row target_col = PStr "A592UFM060F" /\
  get_market_price_sheet sample_sheet target_row target_col <> PStr "42.5".
Proof. split; vm_compute; [reflexivity | discriminate]. Qed.

(** C6: [get_market_price] returns the absent value [""] exactly when no
    column contains [colname], or no row contains [rowname], or the cell at
    the selected (last) row and column is empty ([""]); otherwise it returns
    that cell's value. *)
Theorem get_market_price_absent (sh : sheet) (rowname colname : string) :
  (get_market_price_sheet sh rowname colname = PStr "" <->
     (forall i, i < ncols sh -> col_has sh colname i = false) \/
     (forall i, i < nrows sh -> row_has sh rowname i = false) \/
     (exists ci ri, last_match (col_has sh colname) (ncols sh) ci /\
                    last_match (row_has sh rowname) (nrows sh) ri /\
                    cell_value sh ri ci = PStr "")) /\
  (forall ci ri,
     last_match (col_has sh colname) (ncols sh) ci ->
     last_match (row_has sh rowname) (nrows sh) ri ->
     get_market_price_sheet sh rowname colname = cell_value sh ri ci).
Proof.
  split; [|apply get_market_price_sheet_last].
  split.
  - intros Hres.
    destruct (last_or_none (col_has sh colname) (ncols sh)) as [Hc | (ci & Hci)];
      [left; exact Hc|].
    destruct (last_or_none (row_has sh rowname) (nrows sh)) as [Hr | (ri & Hri)];
      [right; left; exact Hr|].
    right; right. exists ci, ri. repeat split; try apply Hci; try apply Hri.
    rewrite <- (get_market_price_sheet_last _ _ _ _ _ Hci Hri). exact Hres.
  - intros [Hc | [Hr | (ci & ri & Hci & Hri & Hcell)]].
    + unfold get_market_price_sheet. rewrite (find_colindex_none _ _ Hc). reflexivity.
    + unfold get_market_price_sheet. destruct (find_colindex sh colname); [|reflexivity].
      apply scan_rows_none, Hr.
    + rewrite (get_market_price_sheet_last _ _ _ _ _ Hci Hri). exact Hcell.
Qed.

Lemma get_market_price_absent_witness :
  get_market_price_sheet sample_sheet target_row target_col = cell_value sample_sheet 1 1.
Proof.
  assert (Hc : last_match (col_has sample_sheet target_col) (ncols sample_sheet) 1).
  { split; [vm_compute; lia|]. split; [vm_compute; reflexivity|].
    intros j Hj. assert (j = 2) as -> by (vm_compute in Hj; lia). vm_compute. reflexivity. }
  assert (Hr : last_match (row_has sample_sheet target_row) (nrows sample_sheet) 1).
  { split; [vm_compute; lia|]. split; [vm_compute; reflexivity|].
    intros j Hj. vm_compute in Hj. lia. }
  exact (proj2 (get_market_price_absent sample_sheet target_row target_col) 1 1 Hc Hr).
Defined.

(** ** The operations, step by step *)

Ltac mrun :=
  unfold bind, ret, raise, attempt, reraise, get_world, emit, write_cache,
    write_report, unlink, set_records, new_semaphore, with_sema,
    with_response, assert_ok in *; cbn in *.

(** ** Universal newlines *)






Section Ops.
Variable remote_page : option string -> option html.
Variable remote_xls : string -> option xls.

Lemma get_html_page_cached (param : string) (n : nat) (w : world) (d : html) :
  html_cache w !! n = Some d ->
  get_html_page remote_page param n w = (inr (html_nl d), w).
Proof. intros H. unfold get_html_page. mrun. rewrite H. reflexivity. Qed.

Lemma get_html_page_fetch (param : string) (n : nat) (w : world) :
  html_cache w !! n = None ->
  get_html_page remote_page param n w =
    match remote_page (page_params param) with
    | Some d =>
        (inr d, mk_world (<[n := d]> (html_cache w)) (reports w) (records w)
                  (trace w ++ net_events (sem_next w) (TPage (page_params param)))
                  (S (sem_next w)))
    | None =>
        (inl (OtherError "AssertionError"),
         mk_world (html_cache w) (reports w) (records w)
                  (trace w ++ net_events (sem_next w) (TPage (page_params param)))
                  (S (sem_next w)))
    end.
Proof.
  intros H. unfold get_html_page, page_params. mrun. rewrite H.
  destruct (String.eqb param ""); cbn;
  (destruct remote_page; cbn; unfold net_events; rewrite <- !app_assoc; reflexivity).
Qed.

Lemma download_xls_spec (link path : string) (w : world) :
  download_xls remote_xls link path w =
    match remote_xls link with
    | Some d =>
        (inr tt, mk_world (html_cache w) (<[path := d]> (reports w)) (records w)
                   (trace w ++ net_events (sem_next w) (TXls link)) (S (sem_next w)))
    | None =>
        (inl (OtherError "AssertionError"),
         mk_world (html_cache w) (reports w) (records w)
                  (trace w ++ net_events (sem_next w) (TXls link)) (S (sem_next w)))
    end.
Proof.
  unfold download_xls. mrun.
  destruct remote_xls; cbn; unfold net_events; rewrite <- !app_assoc; reflexivity.
Qed.

Lemma get_market_price_spec (path rowname colname : string) (w : world) :
  get_market_price path rowname colname w =
    (match reports w !! path with
     | None => inl (OtherError "FileNotFoundError")
     | Some (XlsBad err) => inl err
     | Some (XlsBook sh) => inr (get_market_price_sheet sh rowname colname)
     end, w).
Proof. unfold get_market_price. mrun. destruct (reports w !! path) as [[]|]; reflexivity. Qed.

End Ops.

(** ** Preservation through the monad *)

Section Preserve.
Variable R : world -> world -> Prop.
Hypothesis R_refl : forall w, R w w.
Hypothesis R_trans : forall w1 w2 w3, R w1 w2 -> R w2 w3 -> R w1 w3.

Lemma pres_ret {A} (a : A) : preserves R (ret a).
Proof. intros w r w' H. inversion H. apply R_refl. Qed.

Lemma pres_raise {A} (e : exn) : preserves R (@raise A e).
Proof. intros w r w' H. inversion H. apply R_refl. Qed.

Lemma pres_bind {A B} (m : M A) (k : A -> M B) :
  preserves R m -> (forall a, preserves R (k a)) -> preserves R (bind m k).
Proof.
  intros Hm Hk w r w' H. unfold bind in H.
  destruct (m w) as [[e|a] w1] eqn:E.
  - inversion H; subst. exact (Hm _ _ _ E).
  - exact (R_trans _ _ _ (Hm _ _ _ E) (Hk a _ _ _ H)).
Qed.

Lemma pres_attempt {A} (m : M A) : preserves R m -> preserves R (attempt m).
Proof.
  intros Hm w r w' H. unfold attempt in H.
  destruct (m w) as [r1 w1] eqn:E. inversion H; subst. exact (Hm _ _ _ E).
Qed.

Lemma pres_reraise {A} (r0 : exn + A) : preserves R (reraise r0).
Proof. destruct r0; [apply pres_raise | apply pres_ret]. Qed.

End Preserve.

Lemma net_depth_app (d : nat) (a b : list event) :
  net_depth d (a ++ b) =
    match net_depth d a with Some d' => net_depth d' b | None => None end.
Proof.
  revert d. induction a as [|ev a IH]; intros d; [reflexivity|].
  destruct ev; cbn; try apply IH.
  - destruct (Nat.eqb d 0); [apply IH | reflexivity].
  - destruct d; [reflexivity | apply IH].
Qed.

Lemma one_in_flight_app (a b : list event) :
  one_in_flight a -> one_in_flight b -> one_in_flight (a ++ b).
Proof. unfold one_in_flight. intros Ha Hb. rewrite net_depth_app, Ha. exact Hb. Qed.

Lemma no_task_events_app (a b : list event) :
  no_task_events a -> no_task_events b -> no_task_events (a ++ b).
Proof. apply Forall_app_2. Qed.

Lemma trace_ext_refl (P : list event -> Prop) (w : world) : P [] -> trace_ext P w w.
Proof. intros H. exists []. rewrite app_nil_r. split; [reflexivity | exact H]. Qed.

Lemma trace_ext_same (P : list event -> Prop) (w w' : world) :
  trace w' = trace w -> P [] -> trace_ext P w w'.
Proof. intros E H. exists []. rewrite app_nil_r. split; [exact E | exact H]. Qed.

Lemma trace_ext_trans (P : list event -> Prop) (w1 w2 w3 : world) :
  (forall a b, P a -> P b -> P (a ++ b)) ->
  trace_ext P w1 w2 -> trace_ext P w2 w3 -> trace_ext P w1 w3.
Proof.
  intros Happ (t1 & E1 & P1) (t2 & E2 & P2). exists (t1 ++ t2).
  rewrite E2, E1, app_assoc. split; [reflexivity | apply Happ; assumption].
Qed.

Lemma R_body_refl (w : world) : R_body w w.
Proof.
  split; [intros n d H; exact H|]. split; [intros p x _ H; exact H|].
  split; [intros H; exact H|].
  apply trace_ext_refl. split; [constructor | reflexivity].
Qed.

Lemma R_body_trans (w1 w2 w3 : world) : R_body w1 w2 -> R_body w2 w3 -> R_body w1 w3.
Proof.
  intros (C1 & G1 & O1 & T1) (C2 & G2 & O2 & T2). split; [|split; [|split]].
  - intros n d H. apply C2, C1, H.
  - intros p x Hg H. apply G2, G1; assumption.
  - intros H. apply O2, O1, H.
  - eapply trace_ext_trans; [|exact T1|exact T2].
    intros a b [Na Fa] [Nb Fb]. split; [apply no_task_events_app | apply one_in_flight_app]; assumption.
Qed.

Lemma R_loop_refl (w : world) : R_loop w w.
Proof.
  split; [intros n d H; exact H|]. split; [intros p x _ H; exact H|].
  split; [intros H; exact H|]. apply trace_ext_refl. reflexivity.
Qed.

Lemma R_loop_trans (w1 w2 w3 : world) : R_loop w1 w2 -> R_loop w2 w3 -> R_loop w1 w3.
Proof.
  intros (C1 & G1 & O1 & T1) (C2 & G2 & O2 & T2). split; [|split; [|split]].
  - intros n d H. apply C2, C1, H.
  - intros p x Hg H. apply G2, G1; assumption.
  - intros H. apply O2, O1, H.
  - eapply trace_ext_trans; [exact one_in_flight_app|exact T1|exact T2].
Qed.

Lemma R_body_loop (w w' : world) : R_body w w' -> R_loop w w'.
Proof.
  intros (C & G & O & tr & E & _ & F). split; [|split; [|split]]; try assumption.
  exists tr. split; assumption.
Qed.

Lemma net_events_flat (s : nat) (t : target) :
  no_task_events (net_events s t) /\ one_in_flight (net_events s t).
Proof. split; [repeat constructor | reflexivity]. Qed.

Arguments download_xls : simpl never.
Arguments get_html_page : simpl never.

Lemma records_ok_kept (w w' : world) :
  good_kept w w' -> records w' = records w -> records_ok w -> records_ok w'.
Proof.
  intros G E O rec Hin. rewrite E in Hin.
  destruct (O rec Hin) as (x & Hx & Gx). exists x. split; [apply G|]; assumption.
Qed.

(** The effects of one element of the listing. *)
Section Element.
Variable remote_xls : string -> option xls.

Lemma process_element_body (el : div) : preserves R_body (process_element remote_xls el).
Proof.
  intros w r w' H. unfold process_element in H.
  destruct (d_anchor el) as [tag|]; [|inversion H; subst; apply R_body_refl].
  destruct (tag_contains text_to_search tag); [|inversion H; subst; apply R_body_refl].
  destruct (d_span el) as [date|]; [|inversion H; subst; apply R_body_refl].
  set (path := date +:+ ".xls") in *.
  mrun.
  destruct (reports w !! path) as [x|] eqn:Hp.
  - cbn in H. rewrite Hp in H. destruct x as [sh|]; cbn in H;
      [|inversion H; subst; apply R_body_refl].
    destruct (truthy (get_market_price_sheet sh target_row target_col)) eqn:Ht; cbn in H.
    + destruct (strptime_dmy date) as [d|]; cbn in H; [|inversion H; subst; apply R_body_refl].
      unfold append_record in H. mrun. inversion H; subst.
      split; [intros n d' E; exact E|]. split; [intros p x _ E; exact E|].
      split; [|apply trace_ext_same; [reflexivity | split; [constructor|reflexivity]]].
      intros O rec Hin. cbn in Hin. apply in_app_or in Hin as [Hin | [<- | []]].
      * exact (O rec Hin).
      * exists (XlsBook sh). split; [exact Hp|]. exists sh. split; [reflexivity | exact Ht].
    + rewrite Hp in H. cbn in H. inversion H; subst.
      assert (G : good_kept w (mk_world (html_cache w) (delete path (reports w))
                                  (records w) (trace w) (sem_next w))).
      { intros p x (sh' & -> & Hg) Hpx. cbn.
        destruct (decide (p = path)) as [->|Hne].
        - rewrite Hp in Hpx. injection Hpx as <-. congruence.
        - rewrite lookup_delete_ne by congruence. exact Hpx. }
      split; [intros n d' E; exact E|]. split; [exact G|].
      split; [apply records_ok_kept; [exact G | reflexivity]|].
      apply trace_ext_same; [reflexivity | split; [constructor|reflexivity]].
  - cbn in H. rewrite download_xls_spec in H.
    destruct (remote_xls (schema +:+ domain +:+ a_href tag)) as [x|]; cbn in H.
    2:{ inversion H; subst.
        split; [intros n d' E; exact E|]. split; [intros p x _ E; exact E|].
        split; [apply records_ok_kept; [intros p x _ E; exact E | reflexivity]|].
        exists (net_events (sem_next w) (TXls (schema +:+ domain +:+ a_href tag))).
        split; [reflexivity | apply net_events_flat]. }
    rewrite lookup_insert_eq in H.
    set (w1 := mk_world (html_cache w) (<[path:=x]> (reports w)) (records w)
                 (trace w ++ net_events (sem_next w) (TXls (schema +:+ domain +:+ a_href tag)))
                 (S (sem_next w))) in *.
    assert (G1 : good_kept w w1).
    { intros p y _ Hpy. cbn. destruct (decide (p = path)) as [->|Hne]; [congruence|].
      rewrite lookup_insert_ne by congruence. exact Hpy. }
    assert (B1 : R_body w w1).
    { split; [intros n d' E; exact E|]. split; [exact G1|].
      split; [apply records_ok_kept; [exact G1 | reflexivity]|].
      exists (net_events (sem_next w) (TXls (schema +:+ domain +:+ a_href tag))).
      split; [reflexivity | apply net_events_flat]. }
    destruct x as [sh|]; cbn in H; [|inversion H; subst; exact B1].
    destruct (truthy (get_market_price_sheet sh target_row target_col)) eqn:Ht; cbn in H.
    + destruct (strptime_dmy date) as [d|]; cbn in H; [|inversion H; subst; exact B1].
      unfold append_record in H. mrun. inversion H; subst.
      apply (R_body_trans _ w1); [exact B1|].
      split; [intros n d' E; exact E|]. split; [intros p x _ E; exact E|].
      split; [|apply trace_ext_same; [reflexivity | split; [constructor|reflexivity]]].
      intros O rec Hin. cbn in Hin. apply in_app_or in Hin as [Hin | [<- | []]].
      * exact (O rec Hin).
      * exists (XlsBook sh). cbn. split; [apply lookup_insert_eq|].
        exists sh. split; [reflexivity | exact Ht].
    + rewrite lookup_insert_eq in H. cbn in H. inversion H; subst.
      apply (R_body_trans _ w1); [exact B1|].
      assert (G : good_kept w1 (mk_world (html_cache w1) (delete path (reports w1))
                                   (records w1) (trace w1) (sem_next w1))).
      { intros p y (sh' & -> & Hg) Hpy. cbn.
        destruct (decide (p = path)) as [->|Hne].
        - cbn in Hpy. rewrite lookup_insert_eq in Hpy. injection Hpy as <-. congruence.
        - rewrite lookup_delete_ne by congruence. exact Hpy. }
      split; [intros n d' E; exact E|]. split; [exact G|].
      split; [apply records_ok_kept; [exact G | reflexivity]|].
      apply trace_ext_same; [reflexivity | split; [constructor|reflexivity]].
Qed.

End Element.

Section Element2.
Variable remote_xls : string -> option xls.



(** A block that raises appends no record. *)
Lemma process_element_raise_records (el : div) (w w' : world) (e : exn) :
  process_element remote_xls el w = (inl e, w') -> records w' = records w.
Proof.
  intros H. unfold process_element in H.
  destruct (d_anchor el) as [tag|]; [|inversion H; subst; reflexivity].
  destruct (tag_contains text_to_search tag); [|inversion H].
  destruct (d_span el) as [date|]; [|inversion H; subst; reflexivity].
  set (path := date +:+ ".xls") in *.
  mrun.
  destruct (reports w !! path) as [x|] eqn:Hp.
  - cbn in H. rewrite Hp in H. destruct x as [sh|err]; cbn in H; [|inversion H; subst; reflexivity].
    destruct (truthy (get_market_price_sheet sh target_row target_col)); cbn in H.
    + destruct (strptime_dmy date) as [d|]; cbn in H; [|inversion H; subst; reflexivity].
      unfold append_record in H. mrun. inversion H.
    + rewrite Hp in H. cbn in H. inversion H; subst. reflexivity.
  - cbn in H. rewrite download_xls_spec in H.
    destruct (remote_xls (schema +:+ domain +:+ a_href tag)) as [x|]; cbn in H;
      [|inversion H; subst; reflexivity].
    rewrite lookup_insert_eq in H.
    destruct x as [sh|err]; cbn in H; [|inversion H; subst; reflexivity].
    destruct (truthy (get_market_price_sheet sh target_row target_col)); cbn in H.
    + destruct (strptime_dmy date) as [d|]; cbn in H; [|inversion H; subst; reflexivity].
      unfold append_record in H. mrun. inversion H.
    + rewrite lookup_insert_eq in H. cbn in H. inversion H; subst. reflexivity.
Qed.

(** An element whose extraction is falsy deletes its spreadsheet and raises
    [ValueError]; nothing else changes but the trace of the download. *)
Lemma process_element_absent (el : div) (tag : anchor) (date : string) (sh : sheet)
      (w : world) :
  d_anchor el = Some tag ->
  tag_contains text_to_search tag = true ->
  d_span el = Some date ->
  (reports w !! (date +:+ ".xls") = Some (XlsBook sh) \/
   (reports w !! (date +:+ ".xls") = None /\
    remote_xls (schema +:+ domain +:+ a_href tag) = Some (XlsBook sh))) ->
  truthy (get_market_price_sheet sh target_row target_col) = false ->
  let '(r, w') := process_element remote_xls el w in
  r = inl (ValueError "market price is not found") /\
  reports w' = delete (date +:+ ".xls") (reports w) /\
  records w' = records w /\
  html_cache w' = html_cache w /\
  trace_ext no_task_events w w'.
Proof.
  intros Ha Hc Hs Hfile Ht. unfold process_element.
  rewrite Ha, Hc, Hs.
  set (path := date +:+ ".xls") in *.
  mrun.
  destruct Hfile as [Hp | [Hp Hx]].
  - rewrite Hp. cbn. rewrite Hp. cbn. rewrite Ht. cbn. rewrite Hp. cbn.
    repeat split; [].
    apply trace_ext_same; [reflexivity | constructor].
  - rewrite Hp. cbn. rewrite download_xls_spec, Hx. cbn.
    rewrite lookup_insert_eq. cbn. rewrite Ht. cbn. rewrite lookup_insert_eq. cbn.
    split; [reflexivity|]. split; [apply delete_insert_eq|].
    split; [reflexivity|]. split; [reflexivity|].
    exists (net_events (sem_next w) (TXls (schema +:+ domain +:+ a_href tag))).
    split; [reflexivity | apply net_events_flat].
Qed.

Lemma process_elements_body (es : list div) : preserves R_body (process_elements remote_xls es).
Proof.
  induction es as [|e es IH]; cbn.
  - apply pres_ret, R_body_refl.
  - apply pres_bind; [exact R_body_trans | apply process_element_body | intros _; exact IH].
Qed.


Lemma process_elements_app (l1 l2 : list div) (w : world) :
  process_elements remote_xls (l1 ++ l2) w =
    match process_elements remote_xls l1 w with
    | (inl e, w1) => (inl e, w1)
    | (inr _, w1) => process_elements remote_xls l2 w1
    end.
Proof.
  revert w. induction l1 as [|e l1 IH]; intros w; [reflexivity|].
  cbn. unfold bind. destruct (process_element remote_xls e w) as [[ex|[]] w1]; [reflexivity|].
  apply IH.
Qed.

End Element2.

(** ** Tasks and the controller loop *)

Section Loop.
Variable remote_page : option string -> option html.
Variable remote_xls : string -> option xls.

Lemma get_html_page_body (param : string) (n : nat) :
  preserves R_body (get_html_page remote_page param n).
Proof.
  intros w r w' H.
  destruct (html_cache w !! n) as [d|] eqn:Hc.
  - rewrite (get_html_page_cached _ _ _ _ _ Hc) in H. inversion H; subst. apply R_body_refl.
  - rewrite (get_html_page_fetch _ _ _ _ Hc) in H.
    assert (T : trace_ext (fun tr => no_task_events tr /\ one_in_flight tr) w
                  (mk_world (html_cache w) (reports w) (records w)
                     (trace w ++ net_events (sem_next w) (TPage (page_params param)))
                     (S (sem_next w)))).
    { eexists. split; [reflexivity | apply net_events_flat]. }
    destruct (remote_page (page_params param)) as [d|]; inversion H; subst.
    + split; [|split; [|split]].
      * intros m d' E. cbn. destruct (decide (m = n)) as [->|Hne]; [congruence|].
        rewrite lookup_insert_ne by congruence. exact E.
      * intros p x _ E. exact E.
      * apply records_ok_kept; [intros p x _ E; exact E | reflexivity].
      * destruct T as (tr & E & P). exists tr. split; [exact E | exact P].
    + split; [|split; [|split]].
      * intros m d' E. exact E.
      * intros p x _ E. exact E.
      * apply records_ok_kept; [intros p x _ E; exact E | reflexivity].
      * exact T.
Qed.


Lemma task_body (param : string) (count : nat) :
  preserves R_body (download_and_analyze_report remote_page remote_xls param count).
Proof.
  unfold download_and_analyze_report. apply pres_bind; [exact R_body_trans | |].
  - apply get_html_page_body.
  - intros data. apply process_elements_body.
Qed.


Lemma run_task_spec (count : nat) (param : string) (w : world) :
  run_task remote_page remote_xls count param w =
    let '(r, w1) := download_and_analyze_report remote_page remote_xls param count
                      (add_event w (TaskStarted count)) in
    (inr (status_of r), add_event w1 (TaskFinished count)).
Proof.
  unfold run_task, bind, attempt, emit, ret. cbn.
  destruct (download_and_analyze_report remote_page remote_xls param count _) as [r w1].
  reflexivity.
Qed.

Arguments run_task : simpl never.

Lemma run_pending_done_app (ts : list (nat * status)) (c : nat) (param : string) (w : world) :
  Forall task_done ts ->
  run_pending remote_page remote_xls (ts ++ [(c, Pending param)]) w =
    let '(r, w') := run_task remote_page remote_xls c param w in
    match r with
    | inl e => (inl e, w')
    | inr st => (inr (ts ++ [(c, st)]), w')
    end.
Proof.
  revert w. induction ts as [|[n st] ts IH]; intros w Hd.
  - cbn. unfold bind, ret. destruct (run_task remote_page remote_xls c param w) as [[e|st] w'];
      reflexivity.
  - inversion Hd as [|? ? Hst Hts]; subst. unfold task_done in Hst. cbn in Hst. subst st.
    cbn. unfold bind at 1. rewrite (IH w Hts).
    destruct (run_task remote_page remote_xls c param w) as [[e|st] w']; reflexivity.
Qed.

Lemma gather_exn_done_app (ts : list (nat * status)) (c : nat) (st : status) :
  Forall task_done ts ->
  gather_exn (ts ++ [(c, st)]) = match st with Failed e => Some e | _ => None end.
Proof.
  induction ts as [|[n st'] ts IH]; intros Hd.
  - destruct st; reflexivity.
  - inversion Hd as [|? ? Hst Hts]; subst. unfold task_done in Hst. cbn in Hst. subst st'.
    cbn. apply IH, Hts.
Qed.

(** One iteration of the [while True] loop, when every earlier task is
    done: create the task for [count + 1], run it, then [break], re-raise,
    or go on. *)
Lemma crawl_loop_S (fuel page_num count : nat) (ts : list (nat * status)) (w : world) :
  Forall task_done ts ->
  crawl_loop remote_page remote_xls (S fuel) page_num count ts w =
    let '(page_num', param) := next_page page_num (S count) in
    let '(r, w2) := run_task remote_page remote_xls (S count) param
                      (add_event w (TaskCreated (S count))) in
    match r with
    | inl e => (inl e, w2)
    | inr (Failed (ValueError _)) => (inr Broke, w2)
    | inr (Failed e) => (inl e, w2)
    | inr st => crawl_loop remote_page remote_xls fuel page_num' (S count)
                  (ts ++ [(S count, st)]) w2
    end.
Proof.
  intros Hd. cbn [crawl_loop].
  destruct (next_page page_num (S count)) as [pn' param].
  unfold bind at 1. unfold emit at 1. fold (add_event w (TaskCreated (S count))).
  unfold bind at 1. rewrite (run_pending_done_app _ _ _ _ Hd).
  destruct (run_task remote_page remote_xls (S count) param _) as [[e|st] w2]; [reflexivity|].
  rewrite (gather_exn_done_app _ _ _ Hd).
  destruct st as [p| |[m|n]]; reflexivity.
Qed.

End Loop.

Lemma R_loop_add_event (w : world) (ev : event) :
  (forall t, ev <> NetBegin t) -> (forall t, ev <> NetEnd t) -> R_loop w (add_event w ev).
Proof.
  intros Hb He. split; [intros n d E; exact E|]. split; [intros p x _ E; exact E|].
  split; [apply records_ok_kept; [intros p x _ E; exact E | reflexivity]|].
  exists [ev]. split; [reflexivity|].
  destruct ev; try reflexivity; [exfalso; eapply Hb; reflexivity | exfalso; eapply He; reflexivity].
Qed.


Section Loop2.
Variable remote_page : option string -> option html.
Variable remote_xls : string -> option xls.

Lemma run_task_loop (count : nat) (param : string) :
  preserves R_loop (run_task remote_page remote_xls count param).
Proof.
  intros w r w' H. rewrite run_task_spec in H.
  destruct (download_and_analyze_report remote_page remote_xls param count
              (add_event w (TaskStarted count))) as [r1 w1] eqn:E.
  inversion H; subst.
  apply (R_loop_trans _ (add_event w (TaskStarted count)));
    [apply R_loop_add_event; discriminate|].
  apply (R_loop_trans _ w1); [|apply R_loop_add_event; discriminate].
  apply R_body_loop. exact (task_body _ _ _ _ _ _ _ E).
Qed.


Lemma run_task_status (count : nat) (param : string) (w : world) :
  exists r w', run_task remote_page remote_xls count param w = (inr (status_of r), w').
Proof.
  rewrite run_task_spec.
  destruct (download_and_analyze_report remote_page remote_xls param count _) as [r1 w1].
  exists r1, (add_event w1 (TaskFinished count)). reflexivity.
Qed.

Lemma crawl_loop_loop (fuel page_num count : nat) (ts : list (nat * status)) :
  Forall task_done ts ->
  preserves R_loop (crawl_loop remote_page remote_xls fuel page_num count ts).
Proof.
  revert page_num count ts. induction fuel as [|fuel IH]; intros pn c ts Hd w r w' H.
  - inversion H; subst. apply R_loop_refl.
  - rewrite (crawl_loop_S _ _ _ _ _ _ _ Hd) in H.
    destruct (next_page pn (S c)) as [pn' param].
    destruct (run_task_status (S c) param (add_event w (TaskCreated (S c)))) as (r1 & w2 & E).
    rewrite E in H.
    assert (L : R_loop w w2).
    { apply (R_loop_trans _ (add_event w (TaskCreated (S c))));
        [apply R_loop_add_event; discriminate|].
      exact (run_task_loop _ _ _ _ _ E). }
    destruct r1 as [[m|n]|[]]; cbn in H.
    + inversion H; subst. exact L.
    + inversion H; subst. exact L.
    + apply (R_loop_trans _ w2); [exact L|].
      refine (IH _ _ _ _ _ _ _ H).
      apply Forall_app_2; [exact Hd | constructor; [reflexivity | constructor]].
Qed.


End Loop2.

Section Run.
Variable remote_page : option string -> option html.
Variable remote_xls : string -> option xls.

Lemma get_records_spec (fuel : nat) (w0 : world) :
  get_records remote_page remote_xls fuel w0 =
    match crawl_loop remote_page remote_xls fuel 0 0 [] (reset_records w0) with
    | (inl e, w) => (inl e, w)
    | (inr Broke, w) => (inr (Some (records w)), w)
    | (inr (StillRunning _ _ _), w) => (inr None, w)
    end.
Proof.
  unfold get_records, bind, set_records. fold (reset_records w0).
  destruct (crawl_loop remote_page remote_xls fuel 0 0 [] (reset_records w0)) as [[e|[]] w];
    reflexivity.
Qed.

Lemma crawl_loop_still (k page_num count : nat) (ts : list (nat * status))
      (w : world) (pn' c' : nat) (ts' : list (nat * status)) (w' : world) :
  Forall task_done ts ->
  crawl_loop remote_page remote_xls k page_num count ts w = (inr (StillRunning pn' c' ts'), w') ->
  Forall task_done ts' /\
  forall f, crawl_loop remote_page remote_xls (k + f) page_num count ts w =
            crawl_loop remote_page remote_xls f pn' c' ts' w'.
Proof.
  revert page_num count ts w. induction k as [|k IH]; intros pn c ts w Hd H.
  - inversion H; subst. split; [exact Hd | intros f; reflexivity].
  - rewrite (crawl_loop_S _ _ _ _ _ _ _ Hd) in H.
    destruct (next_page pn (S c)) as [pn1 param] eqn:Enp.
    destruct (run_task_status remote_page remote_xls (S c) param (add_event w (TaskCreated (S c)))) as (r1 & w2 & E).
    rewrite E in H.
    destruct r1 as [[m|n]|[]]; cbn in H; try discriminate.
    assert (Hd' : Forall task_done (ts ++ [(S c, Done)])).
    { apply Forall_app_2; [exact Hd | constructor; [reflexivity | constructor]]. }
    destruct (IH _ _ _ _ Hd' H) as [Hts' Hf].
    split; [exact Hts'|]. intros f. cbn [Nat.add].
    rewrite (crawl_loop_S _ _ _ _ _ _ _ Hd), Enp, E. cbn. apply Hf.
Qed.

Lemma get_records_loop (fuel : nat) : preserves R_loop (get_records remote_page remote_xls fuel).
Proof.
  intros w0 r wf H. rewrite get_records_spec in H.
  destruct (crawl_loop remote_page remote_xls fuel 0 0 [] (reset_records w0)) as [r1 w1] eqn:E.
  assert (L : R_loop w0 w1).
  { apply (R_loop_trans _ (reset_records w0)).
    - split; [intros n d D; exact D|]. split; [intros p x _ D; exact D|].
      split; [intros _ rec []|]. apply trace_ext_same; reflexivity.
    - exact (crawl_loop_loop _ _ _ _ _ _ (Forall_nil_2 _) _ _ _ E). }
  destruct r1 as [e|[]]; inversion H; subst; exact L.
Qed.



End Run.

(** ** The termination protocol *)

Section Termination.
Variable remote_page : option string -> option html.
Variable remote_xls : string -> option xls.

Lemma crawl_absent_core (k fuel : nat) (w0 w w_p w_e : world) (pn c : nat)
      (ts : list (nat * status)) (data : html) (pre post : list div) (el : div)
      (tag : anchor) (date : string) (sh : sheet) :
  crawl_loop remote_page remote_xls k 0 0 [] (reset_records w0) =
    (inr (StillRunning pn c ts), w) ->
  get_html_page remote_page (snd (next_page pn (S c))) (S c)
    (add_event (add_event w (TaskCreated (S c))) (TaskStarted (S c))) = (inr data, w_p) ->
  get_html_elements data class_to_search = pre ++ el :: post ->
  process_elements remote_xls pre w_p = (inr tt, w_e) ->
  d_anchor el = Some tag ->
  tag_contains text_to_search tag = true ->
  d_span el = Some date ->
  (reports w_e !! (date +:+ ".xls") = Some (XlsBook sh) \/
   (reports w_e !! (date +:+ ".xls") = None /\
    remote_xls (schema +:+ domain +:+ a_href tag) = Some (XlsBook sh))) ->
  truthy (get_market_price_sheet sh target_row target_col) = false ->
  exists wf tr,
    get_records remote_page remote_xls (k + S fuel) w0 = (inr (Some (records w_e)), wf) /\
    reports wf = delete (date +:+ ".xls") (reports w_e) /\
    trace wf = trace w_e ++ tr /\
    (forall n, ~ In (TaskCreated n) tr).
Proof.
  intros Hk Hpage Hels Hpre Ha Hc Hs Hfile Ht.
  destruct (crawl_loop_still _ _ _ _ _ _ _ _ _ _ _ (Forall_nil_2 _) Hk) as [Hd Hadd].
  pose proof (process_element_absent remote_xls el tag date sh w_e Ha Hc Hs Hfile Ht) as Habs.
  destruct (process_element remote_xls el w_e) as [ra wa] eqn:Ea.
  destruct Habs as (-> & Hrep & Hrec & _ & tr0 & Htr0 & Hno).
  exists (add_event wa (TaskFinished (S c))), (tr0 ++ [TaskFinished (S c)]).
  rewrite get_records_spec, (Hadd (S fuel)), (crawl_loop_S _ _ _ _ _ _ _ Hd).
  destruct (next_page pn (S c)) as [pn1 param] eqn:Enp. cbn in Hpage.
  rewrite run_task_spec.
  unfold download_and_analyze_report at 1. unfold bind at 1. rewrite Hpage.
  rewrite Hels, process_elements_app, Hpre. cbn [process_elements].
  unfold bind at 1. rewrite Ea. cbn.
  split; [rewrite Hrec; reflexivity|]. split; [exact Hrep|].
  split; [cbn; rewrite Htr0, app_assoc; reflexivity|].
  intros n Hin. apply in_app_or in Hin as [Hin | [Heq | []]]; [|discriminate].
  pose proof (proj1 (List.Forall_forall _ _) Hno _ Hin) as X. discriminate X.
Qed.

End Termination.

(** ** The termination protocol *)

Section TerminationProps.
Variable remote_page : option string -> option html.
Variable remote_xls : string -> option xls.

(** C1: the first time the extraction of a matching entry is absent (its
    value is falsy) the task deletes that entry's spreadsheet and raises;
    the loop catches it, launches no further page task and [get_records]
    returns, as a normal result, exactly the records accumulated up to that
    entry. Here the crawl has run [k] iterations; the next page's task
    processes the entries [pre] and then reaches [el]. *)
Theorem crawl_stops_on_absent (k fuel : nat) (w0 w w_p w_e : world) (pn c : nat)
      (ts : list (nat * status)) (data : html) (pre post : list div) (el : div)
      (tag : anchor) (date : string) (sh : sheet) :
  crawl_loop remote_page remote_xls k 0 0 [] (reset_records w0) =
    (inr (StillRunning pn c ts), w) ->
  get_html_page remote_page (snd (next_page pn (S c))) (S c)
    (add_event (add_event w (TaskCreated (S c))) (TaskStarted (S c))) = (inr data, w_p) ->
  get_html_elements data class_to_search = pre ++ el :: post ->
  process_elements remote_xls pre w_p = (inr tt, w_e) ->
  d_anchor el = Some tag ->
  tag_contains text_to_search tag = true ->
  d_span el = Some date ->
  (reports w_e !! (date +:+ ".xls") = Some (XlsBook sh) \/
   (reports w_e !! (date +:+ ".xls") = None /\
    remote_xls (schema +:+ domain +:+ a_href tag) = Some (XlsBook sh))) ->
  truthy (get_market_price_sheet sh target_row target_col) = false ->
  exists wf tr,
    get_records remote_page remote_xls (k + S fuel) w0 = (inr (Some (records w_e)), wf) /\
    reports wf = delete (date +:+ ".xls") (reports w_e) /\
    trace wf = trace w_e ++ tr /\
    (forall n, ~ In (TaskCreated n) tr).
Proof. apply crawl_absent_core. Qed.

(** C10: the controller's absence test is Python falsiness: the falsy cell
    values are [""], a float equal to 0 and the int 0, and any falsy value
    at the target intersection deletes the spreadsheet and ends the crawl
    exactly as a missing commodity does. *)
Theorem falsy_cell_stops_crawl :
  (forall v, truthy v = false <->
             v = PStr "" \/ (exists q, v = PFloat q /\ Qeq q 0%Q) \/ v = PInt 0%Z) /\
  (forall (k fuel : nat) (w0 w w_p w_e : world) (pn c : nat)
          (ts : list (nat * status)) (data : html) (pre post : list div) (el : div)
          (tag : anchor) (date : string) (sh : sheet) (ci ri : nat) (v : pyval),
    crawl_loop remote_page remote_xls k 0 0 [] (reset_records w0) =
      (inr (StillRunning pn c ts), w) ->
    get_html_page remote_page (snd (next_page pn (S c))) (S c)
      (add_event (add_event w (TaskCreated (S c))) (TaskStarted (S c))) = (inr data, w_p) ->
    get_html_elements data class_to_search = pre ++ el :: post ->
    process_elements remote_xls pre w_p = (inr tt, w_e) ->
    d_anchor el = Some tag ->
    tag_contains text_to_search tag = true ->
    d_span el = Some date ->
    (reports w_e !! (date +:+ ".xls") = Some (XlsBook sh) \/
     (reports w_e !! (date +:+ ".xls") = None /\
      remote_xls (schema +:+ domain +:+ a_href tag) = Some (XlsBook sh))) ->
    last_match (col_has sh target_col) (ncols sh) ci ->
    last_match (row_has sh target_row) (nrows sh) ri ->
    cell_value sh ri ci = v ->
    truthy v = false ->
    exists wf tr,
      get_records remote_page remote_xls (k + S fuel) w0 = (inr (Some (records w_e)), wf) /\
      reports wf = delete (date +:+ ".xls") (reports w_e) /\
      trace wf = trace w_e ++ tr /\
      (forall n, ~ In (TaskCreated n) tr)).
Proof.
  split.
  - intros [s|q|z]; cbn.
    + rewrite negb_false_iff, String.eqb_eq. split.
      * intros ->. left. reflexivity.
      * intros [E | [(q & E & _) | E]]; congruence.
    + rewrite negb_false_iff, Qeq_bool_iff. split.
      * intros E. right; left. exists q. split; [reflexivity | exact E].
      * intros [E | [(q' & E & Hq) | E]]; [discriminate | injection E as <-; exact Hq | discriminate].
    + rewrite negb_false_iff, Z.eqb_eq. split.
      * intros ->. right; right. reflexivity.
      * intros [E | [(q & E & _) | E]]; [discriminate | discriminate | injection E as <-; reflexivity].
  - intros k fuel w0 w w_p w_e pn c ts data pre post el tag date sh ci ri v
      Hk Hpage Hels Hpre Ha Hc Hs Hfile Hci Hri Hv Ht.
    apply (crawl_absent_core _ _ _ _ _ _ _ _ _ _ _ _ _ _ _ _ _ _
             Hk Hpage Hels Hpre Ha Hc Hs Hfile).
    rewrite (get_market_price_sheet_last _ _ _ _ _ Hci Hri), Hv. exact Ht.
Qed.

End TerminationProps.

Lemma crawl_stops_on_absent_witness :
  exists wf tr,
    get_records listing3 (bulletins3 no_target_sheet) (2 + S 0) empty_world =
      (inr (Some (records (run3_page3 no_target_sheet))), wf) /\
    reports wf = delete ("08.01.2023" +:+ ".xls") (reports (run3_page3 no_target_sheet)) /\
    trace wf = trace (run3_page3 no_target_sheet) ++ tr /\
    (forall n, ~ In (TaskCreated n) tr).
Proof.
  apply (crawl_stops_on_absent listing3 (bulletins3 no_target_sheet) 2 0 empty_world
           (run3_after2 no_target_sheet) (run3_page3 no_target_sheet)
           (run3_page3 no_target_sheet) 1 2 [(1, Done); (2, Done)]
           [bulletin "08.01.2023"] [] [] (bulletin "08.01.2023")
           (mk_anchor ("/upload/" +:+ "08.01.2023" +:+ ".xls") [NText text_to_search])
           "08.01.2023" no_target_sheet).
  - vm_compute. reflexivity.
  - vm_compute. reflexivity.
  - vm_compute. reflexivity.
  - reflexivity.
  - reflexivity.
  - vm_compute. reflexivity.
  - reflexivity.
  - right. split; vm_compute; reflexivity.
  - vm_compute. reflexivity.
Defined.

Lemma falsy_cell_stops_crawl_witness :
  exists wf tr,
    get_records listing3 (bulletins3 (price_sheet (PFloat 0%Q))) (2 + S 0) empty_world =
      (inr (Some (records (run3_page3 (price_sheet (PFloat 0%Q))))), wf) /\
    reports wf = delete ("08.01.2023" +:+ ".xls")
                        (reports (run3_page3 (price_sheet (PFloat 0%Q)))) /\
    trace wf = trace (run3_page3 (price_sheet (PFloat 0%Q))) ++ tr /\
    (forall n, ~ In (TaskCreated n) tr).
Proof.
  apply (proj2 (falsy_cell_stops_crawl listing3 (bulletins3 (price_sheet (PFloat 0%Q))))
           2 0 empty_world
           (run3_after2 (price_sheet (PFloat 0%Q))) (run3_page3 (price_sheet (PFloat 0%Q)))
           (run3_page3 (price_sheet (PFloat 0%Q))) 1 2 [(1, Done); (2, Done)]
           [bulletin "08.01.2023"] [] [] (bulletin "08.01.2023")
           (mk_anchor ("/upload/" +:+ "08.01.2023" +:+ ".xls") [NText text_to_search])
           "08.01.2023" (price_sheet (PFloat 0%Q)) 1 1 (PFloat 0%Q)).
  - vm_compute. reflexivity.
  - vm_compute. reflexivity.
  - vm_compute. reflexivity.
  - reflexivity.
  - reflexivity.
  - vm_compute. reflexivity.
  - reflexivity.
  - right. split; vm_compute; reflexivity.
  - split; [vm_compute; lia | split; [vm_compute; reflexivity | intros j Hj; vm_compute in Hj; lia]].
  - split; [vm_compute; lia | split; [vm_compute; reflexivity | intros j Hj; vm_compute in Hj; lia]].
  - reflexivity.
  - reflexivity.
Defined.

(** ** The caches *)

Section CacheProps.
Variable remote_page : option string -> option html.
Variable remote_xls : string -> option xls.



End CacheProps.





(** ** Order of the page tasks *)

Lemma tasks_in_order_app (l : nat) (a b : list event) :
  tasks_in_order l (a ++ b) = tasks_in_order l a && tasks_in_order (last_finished l a) b.
Proof.
  revert l. induction a as [|ev a IH]; intros l; [reflexivity|].
  destruct ev; cbn; rewrite ?IH; try reflexivity.
  destruct (Nat.eqb _ _); reflexivity.
Qed.

Lemma tasks_in_order_flat (l : nat) (a : list event) :
  no_task_events a -> tasks_in_order l a = true /\ last_finished l a = l.
Proof.
  induction 1 as [|ev a Hev _ [IH1 IH2]]; [split; reflexivity|].
  destruct ev; cbn in Hev |- *; try discriminate; split; assumption.
Qed.

Lemma tasks_in_order_sound (l : nat) (t1 t2 : list event) (n : nat) :
  tasks_in_order l (t1 ++ TaskCreated (S (S n)) :: t2) = true ->
  S n = l \/ In (TaskFinished (S n)) t1.
Proof.
  revert l. induction t1 as [|ev t1 IH]; intros l H.
  - cbn in H. apply andb_true_iff in H as [H _].
    destruct l as [|l]; [discriminate|]. apply Nat.eqb_eq in H. left. lia.
  - destruct ev; cbn in H;
      try (destruct (IH _ H) as [E | I]; [left; exact E | right; right; exact I]).
    + apply andb_true_iff in H as [_ H].
      destruct (IH _ H) as [E | I]; [left; exact E | right; right; exact I].
    + destruct (IH _ H) as [E | I]; [subst; right; left; reflexivity | right; right; exact I].
Qed.

Section Order.
Variable remote_page : option string -> option html.
Variable remote_xls : string -> option xls.

Lemma run_task_trace (count : nat) (param : string) (w w' : world) (r : exn + status) :
  run_task remote_page remote_xls count param w = (r, w') ->
  exists body, trace w' = trace w ++ [TaskStarted count] ++ body ++ [TaskFinished count] /\
               no_task_events body.
Proof.
  intros H. rewrite run_task_spec in H.
  destruct (download_and_analyze_report remote_page remote_xls param count
              (add_event w (TaskStarted count))) as [r1 w1] eqn:E.
  inversion H; subst.
  destruct (task_body remote_page remote_xls param count _ _ _ E) as (_ & _ & _ & tr & T & N & _).
  exists tr. split; [|exact N].
  cbn. rewrite T. cbn. rewrite <- !app_assoc. reflexivity.
Qed.

Lemma crawl_loop_order (fuel page_num count : nat) (ts : list (nat * status))
      (w w' : world) (r : exn + loop_result) :
  Forall task_done ts ->
  crawl_loop remote_page remote_xls fuel page_num count ts w = (r, w') ->
  exists tr, trace w' = trace w ++ tr /\ tasks_in_order count tr = true.
Proof.
  revert page_num count ts w. induction fuel as [|fuel IH]; intros pn c ts w Hd H.
  - inversion H; subst. exists []. split; [rewrite app_nil_r; reflexivity | reflexivity].
  - rewrite (crawl_loop_S _ _ _ _ _ _ _ Hd) in H.
    destruct (next_page pn (S c)) as [pn' param].
    destruct (run_task_status remote_page remote_xls (S c) param
                (add_event w (TaskCreated (S c)))) as (r1 & w2 & E).
    rewrite E in H.
    destruct (run_task_trace _ _ _ _ _ E) as (body & T & N).
    cbn in T.
    destruct (tasks_in_order_flat c body N) as [B1 B2].
    assert (S0 : tasks_in_order c
                   ([TaskCreated (S c)] ++ [TaskStarted (S c)] ++ body ++ [TaskFinished (S c)])
                 = true).
    { cbn. rewrite Nat.eqb_refl. cbn. rewrite tasks_in_order_app, B1, B2. reflexivity. }
    assert (L0 : last_finished c
                   ([TaskCreated (S c)] ++ [TaskStarted (S c)] ++ body ++ [TaskFinished (S c)])
                 = S c).
    { cbn. clear -N. induction N as [|ev a Hev _ IH]; [reflexivity|].
      destruct ev; cbn in Hev |- *; try discriminate; exact IH. }
    assert (T' : trace w2 = trace w ++
                   ([TaskCreated (S c)] ++ [TaskStarted (S c)] ++ body ++ [TaskFinished (S c)])).
    { rewrite T. rewrite <- !app_assoc. reflexivity. }
    destruct r1 as [[m|n]|[]]; cbn in H.
    + inversion H; subst. eexists. split; [exact T' | exact S0].
    + inversion H; subst. eexists. split; [exact T' | exact S0].
    + assert (Hd' : Forall task_done (ts ++ [(S c, Done)])).
      { apply Forall_app_2; [exact Hd | constructor; [reflexivity | constructor]]. }
      destruct (IH _ _ _ _ Hd' H) as (tr & T2 & O2).
      eexists. split.
      * rewrite T2, T', <- app_assoc. reflexivity.
      * rewrite tasks_in_order_app, S0, L0. exact O2.
Qed.

(** C8 (amended): page tasks run one after the other: in the trace of any
    run of [get_records], the task for page [n + 1] is created only after
    the task for page [n] has finished. *)
Theorem page_tasks_sequential (fuel : nat) (w0 wf : world) (r : exn + option (list record)) :
  get_records remote_page remote_xls fuel w0 = (r, wf) ->
  exists tr, trace wf = trace w0 ++ tr /\
    forall t1 t2 n, tr = t1 ++ TaskCreated (S (S n)) :: t2 -> In (TaskFinished (S n)) t1.
Proof.
  intros H. rewrite get_records_spec in H.
  destruct (crawl_loop remote_page remote_xls fuel 0 0 [] (reset_records w0)) as [r1 w1] eqn:E.
  destruct (crawl_loop_order _ _ _ _ _ _ _ (Forall_nil_2 _) E) as (tr & T & O).
  assert (T1 : trace wf = trace w0 ++ tr) by (destruct r1 as [e|[]]; inversion H; subst; exact T).
  exists tr. split; [exact T1|].
  intros t1 t2 n ->. destruct (tasks_in_order_sound _ _ _ _ O) as [X | I]; [discriminate | exact I].
Qed.

End Order.

Lemma page_tasks_sequential_witness :
  exists tr,
    trace (snd (get_records listing3 (bulletins3 no_target_sheet) 3 empty_world)) =
      trace empty_world ++ tr /\
    forall t1 t2 n, tr = t1 ++ TaskCreated (S (S n)) :: t2 -> In (TaskFinished (S n)) t1.
Proof.
  apply (page_tasks_sequential listing3 (bulletins3 no_target_sheet) 3 empty_world
           (snd (get_records listing3 (bulletins3 no_target_sheet) 3 empty_world))
           (inr (Some (records (snd (get_records listing3 (bulletins3 no_target_sheet) 3
                                      empty_world)))))).
  vm_compute. reflexivity.
Defined.

(** In the run of [listing3], the task of page 2 is created after the task
    of page 1 has finished. *)
Lemma page_tasks_sequential_cex :
  exists t1 t2,
    trace (snd (get_records listing3 (bulletins3 no_target_sheet) 3 empty_world)) =
      t1 ++ TaskCreated 2 :: t2 /\ In (TaskFinished 1) t1.
Proof.
  exists (firstn 13 (trace (snd (get_records listing3 (bulletins3 no_target_sheet) 3 empty_world)))),
         (skipn 14 (trace (snd (get_records listing3 (bulletins3 no_target_sheet) 3 empty_world)))).
  split; vm_compute; [reflexivity|].
  right; right; right; right; right; right; right; right; right; right; right; right; left.
  reflexivity.
Qed.

(** ** Entry filtering *)

Section Filter.
Variable remote_xls : string -> option xls.


End Filter.



(** ** The network operations *)

(** C3: every network operation takes a slot of a semaphore it has just
    created ([asyncio.BoundedSemaphore(5)] inside each call), so no bound
    is shared between operations: in a fresh run, the page fetch and the
    spreadsheet download of page 1 use semaphores 0 and 1, each created
    with 5 slots. The bound on operations in flight comes from the
    sequential loop instead: in every run at most one is in flight at any
    point. *)
Theorem net_semaphores_per_call :
  firstn 13 (trace (snd (get_records listing3 (bulletins3 no_target_sheet) 3 empty_world))) =
    [TaskCreated 1; TaskStarted 1] ++
    net_events 0 (TPage None) ++
    net_events 1 (TXls (bulletin_link "10.01.2023")) ++
    [TaskFinished 1] /\
  (forall remote_page remote_xls fuel w0 r wf,
     get_records remote_page remote_xls fuel w0 = (r, wf) ->
     exists tr, trace wf = trace w0 ++ tr /\ one_in_flight tr).
Proof.
  split; [vm_compute; reflexivity|].
  intros remote_page remote_xls fuel w0 r wf H.
  destruct (get_records_loop remote_page remote_xls fuel w0 r wf H) as (_ & _ & _ & T). exact T.
Qed.

(** ** Stop conditions *)

(** C7: a [ValueError] from [datetime.strptime] on a malformed date is
    caught by the same [except ValueError: break]: a run on pages whose
    bulletins all have a truthy price but the date "31.02.2023" stops after
    the first page with no record, and the task of page 2 is never
    created. A page without bulletins does not stop the crawl: the next
    page is requested. *)
Theorem crawl_stops_on_bad_date :
  get_records (listing_dated "31.02.2023") good_xls 5 empty_world =
    (inr (Some []), snd (get_records (listing_dated "31.02.2023") good_xls 5 empty_world)) /\
  trace (snd (get_records (listing_dated "31.02.2023") good_xls 5 empty_world)) =
    [TaskCreated 1; TaskStarted 1] ++
    net_events 0 (TPage None) ++
    net_events 1 (TXls (bulletin_link "31.02.2023")) ++
    [TaskFinished 1] /\
  truthy (get_market_price_sheet (price_sheet (PStr "42.5")) target_row target_col) = true /\
  strptime_dmy "31.02.2023" = None /\
  In (TaskCreated 2)
     (trace (snd (get_records listing_empty_first (bulletins3 no_target_sheet) 2 empty_world))).
Proof.
  split; [vm_compute; reflexivity|]. split; [vm_compute; reflexivity|].
  split; [vm_compute; reflexivity|]. split; [vm_compute; reflexivity|].
  vm_compute. right; right; right; right; right; right; right; right; left. reflexivity.
Qed.

(* ------------------------------------------------------------------ *)
(** * Further properties of the program *)

(** ** The shape of the records *)

Lemma rec_step_same (w w' : world) : records w' = records w -> rec_step w w'.
Proof. intros E. exists []. rewrite E, app_nil_r. split; [reflexivity | constructor]. Qed.

Lemma rec_step_refl (w : world) : rec_step w w.
Proof. apply rec_step_same. reflexivity. Qed.

Lemma rec_step_trans (w1 w2 w3 : world) : rec_step w1 w2 -> rec_step w2 w3 -> rec_step w1 w3.
Proof.
  intros (n1 & E1 & F1) (n2 & E2 & F2). exists (n1 ++ n2).
  rewrite E2, E1, app_assoc. split; [reflexivity | apply Forall_app_2; assumption].
Qed.

Lemma rec_step_add_event (w : world) (ev : event) : rec_step w (add_event w ev).
Proof. apply rec_step_same. reflexivity. Qed.

Section Records.
Variable remote_page : option string -> option html.
Variable remote_xls : string -> option xls.

Lemma get_html_page_records (param : string) (n : nat) :
  preserves rec_step (get_html_page remote_page param n).
Proof.
  intros w r w' H. apply rec_step_same.
  destruct (html_cache w !! n) as [d|] eqn:Hc.
  - rewrite (get_html_page_cached _ _ _ _ _ Hc) in H. inversion H; subst. reflexivity.
  - rewrite (get_html_page_fetch _ _ _ _ Hc) in H.
    destruct (remote_page (page_params param)); inversion H; subst; reflexivity.
Qed.

Lemma process_element_records (el : div) : preserves rec_step (process_element remote_xls el).
Proof.
  intros w r w' H. unfold process_element in H.
  destruct (d_anchor el) as [tag|]; [|inversion H; subst; apply rec_step_refl].
  destruct (tag_contains text_to_search tag); [|inversion H; subst; apply rec_step_refl].
  destruct (d_span el) as [date|]; [|inversion H; subst; apply rec_step_refl].
  set (path := date +:+ ".xls") in *.
  mrun.
  destruct (reports w !! path) as [x|] eqn:Hp.
  - cbn in H. rewrite Hp in H. destruct x as [sh|]; cbn in H;
      [|inversion H; subst; apply rec_step_refl].
    destruct (truthy (get_market_price_sheet sh target_row target_col)) eqn:Ht; cbn in H.
    + destruct (strptime_dmy date) as [d|] eqn:Hd; cbn in H;
        [|inversion H; subst; apply rec_step_refl].
      unfold append_record in H. mrun. inversion H; subst.
      eexists. split; [reflexivity|]. constructor; [|constructor].
      split; [exact Ht|]. exists date. split; [reflexivity | exact Hd].
    + rewrite Hp in H. cbn in H. inversion H; subst. apply rec_step_same. reflexivity.
  - cbn in H. rewrite download_xls_spec in H.
    destruct (remote_xls (schema +:+ domain +:+ a_href tag)) as [x|]; cbn in H;
      [|inversion H; subst; apply rec_step_same; reflexivity].
    rewrite lookup_insert_eq in H. destruct x as [sh|]; cbn in H;
      [|inversion H; subst; apply rec_step_same; reflexivity].
    destruct (truthy (get_market_price_sheet sh target_row target_col)) eqn:Ht; cbn in H.
    + destruct (strptime_dmy date) as [d|] eqn:Hd; cbn in H;
        [|inversion H; subst; apply rec_step_same; reflexivity].
      unfold append_record in H. mrun. inversion H; subst.
      eexists. split; [reflexivity|]. constructor; [|constructor].
      split; [exact Ht|]. exists date. split; [reflexivity | exact Hd].
    + rewrite lookup_insert_eq in H. cbn in H. inversion H; subst.
      apply rec_step_same. reflexivity.
Qed.

Lemma process_elements_records (es : list div) :
  preserves rec_step (process_elements remote_xls es).
Proof.
  induction es as [|e es IH]; cbn.
  - apply pres_ret, rec_step_refl.
  - apply pres_bind; [exact rec_step_trans | apply process_element_records | intros _; exact IH].
Qed.

Lemma task_records (param : string) (count : nat) :
  preserves rec_step (download_and_analyze_report remote_page remote_xls param count).
Proof.
  unfold download_and_analyze_report. apply pres_bind; [exact rec_step_trans | |].
  - apply get_html_page_records.
  - intros data. apply process_elements_records.
Qed.

Lemma run_task_records (count : nat) (param : string) :
  preserves rec_step (run_task remote_page remote_xls count param).
Proof.
  intros w r w' H. rewrite run_task_spec in H.
  destruct (download_and_analyze_report remote_page remote_xls param count
              (add_event w (TaskStarted count))) as [r1 w1] eqn:E.
  inversion H; subst.
  apply (rec_step_trans _ (add_event w (TaskStarted count))); [apply rec_step_add_event|].
  apply (rec_step_trans _ w1); [exact (task_records _ _ _ _ _ E) | apply rec_step_add_event].
Qed.

Lemma crawl_loop_records (fuel page_num count : nat) (ts : list (nat * status)) :
  Forall task_done ts ->
  preserves rec_step (crawl_loop remote_page remote_xls fuel page_num count ts).
Proof.
  revert page_num count ts. induction fuel as [|fuel IH]; intros pn c ts Hd w r w' H.
  - inversion H; subst. apply rec_step_refl.
  - rewrite (crawl_loop_S _ _ _ _ _ _ _ Hd) in H.
    destruct (next_page pn (S c)) as [pn' param].
    destruct (run_task_status remote_page remote_xls (S c) param
                (add_event w (TaskCreated (S c)))) as (r1 & w2 & E).
    rewrite E in H.
    assert (L : rec_step w w2).
    { apply (rec_step_trans _ (add_event w (TaskCreated (S c)))); [apply rec_step_add_event|].
      exact (run_task_records _ _ _ _ _ E). }
    destruct r1 as [[m|n]|[]]; cbn in H.
    + inversion H; subst. exact L.
    + inversion H; subst. exact L.
    + apply (rec_step_trans _ w2); [exact L|].
      refine (IH _ _ _ _ _ _ _ H).
      apply Forall_app_2; [exact Hd | constructor; [reflexivity | constructor]].
Qed.

(** X1: every record of a run, in particular every record [get_records]
    returns, has a truthy price, the path [{date}.xls] and the date parsed
    from that same [date] string. *)
Theorem get_records_wf (fuel : nat) (w0 wf : world) (r : exn + option (list record)) :
  get_records remote_page remote_xls fuel w0 = (r, wf) ->
  Forall record_wf (records wf) /\
  (forall l, r = inr (Some l) -> Forall record_wf l).
Proof.
  intros H. rewrite get_records_spec in H.
  destruct (crawl_loop remote_page remote_xls fuel 0 0 [] (reset_records w0)) as [r1 w1] eqn:E.
  destruct (crawl_loop_records _ _ _ _ (Forall_nil_2 _) _ _ _ E) as (nw & En & Fn).
  cbn in En. subst nw.
  destruct r1 as [e|[]]; inversion H; subst.
  - split; [exact Fn | discriminate].
  - split; [exact Fn|]. intros l El. injection El as <-. exact Fn.
  - split; [exact Fn | discriminate].
Qed.

End Records.

Lemma get_records_wf_witness :
  Forall record_wf (records (snd (get_records listing3 (bulletins3 no_target_sheet) 3 empty_world))).
Proof.
  refine (proj1 (get_records_wf listing3 (bulletins3 no_target_sheet) 3 empty_world
                   (snd (get_records listing3 (bulletins3 no_target_sheet) 3 empty_world))
                   (fst (get_records listing3 (bulletins3 no_target_sheet) 3 empty_world)) _)).
  vm_compute. reflexivity.
Defined.

(** ** The loop variables and the outcome of a failing task *)

Section LoopProps.
Variable remote_page : option string -> option html.
Variable remote_xls : string -> option xls.

Lemma crawl_loop_counters (k page_num count : nat) (ts : list (nat * status)) (w : world)
      (pn' c' : nat) (ts' : list (nat * status)) (w' : world) :
  Forall task_done ts ->
  page_num = count - 1 ->
  crawl_loop remote_page remote_xls k page_num count ts w = (inr (StillRunning pn' c' ts'), w') ->
  c' = count + k /\ pn' = c' - 1 /\ ts' = ts ++ map (fun i => (i, Done)) (seq (S count) k).
Proof.
  revert page_num count ts w. induction k as [|k IH]; intros pn c ts w Hd Hpn H.
  - inversion H; subst. rewrite app_nil_r. split; [lia | split; reflexivity].
  - rewrite (crawl_loop_S _ _ _ _ _ _ _ Hd) in H.
    destruct (next_page pn (S c)) as [pn1 param] eqn:Enp.
    assert (Hpn1 : pn1 = c).
    { unfold next_page in Enp. destruct (1 <? S c) eqn:L; injection Enp as <- _;
        apply Nat.ltb_lt in L || apply Nat.ltb_ge in L; lia. }
    destruct (run_task_status remote_page remote_xls (S c) param
                (add_event w (TaskCreated (S c)))) as (r1 & w2 & E).
    rewrite E in H.
    destruct r1 as [[m|n]|[]]; cbn in H; try discriminate.
    assert (Hd' : Forall task_done (ts ++ [(S c, Done)])).
    { apply Forall_app_2; [exact Hd | constructor; [reflexivity | constructor]]. }
    destruct (IH pn1 (S c) _ _ Hd' ltac:(lia) H) as (E1 & E2 & E3).
    split; [lia|]. split; [exact E2|]. rewrite E3, <- app_assoc. reflexivity.
Qed.

(** X3: after [k] iterations of the [while True] loop, [count] is [k],
    [page_num] is [k - 1], the tasks list holds the tasks 1..k, all
    finished, and the next task (the one caching page [k + 1] as
    [{k+1}.html]) requests the listing with no query for [k = 0] and with
    [page=page-k] otherwise. *)
Theorem crawl_counters (k : nat) (w w' : world) (pn c : nat) (ts : list (nat * status)) :
  crawl_loop remote_page remote_xls k 0 0 [] w = (inr (StillRunning pn c ts), w') ->
  c = k /\ pn = k - 1 /\ ts = map (fun i => (i, Done)) (seq 1 k) /\
  next_page pn (S c) = (k, if Nat.eqb k 0 then "" else "page-" +:+ pretty k).
Proof.
  intros H.
  destruct (crawl_loop_counters k 0 0 [] w pn c ts w' (Forall_nil_2 _) eq_refl H)
    as (E1 & E2 & E3).
  cbn in E1. subst c. split; [reflexivity|]. split; [exact E2|]. split; [exact E3|].
  subst pn. unfold next_page. destruct k as [|k].
  - reflexivity.
  - cbn [Nat.eqb]. replace (1 <? S (S k)) with true by (symmetry; apply Nat.ltb_lt; lia).
    replace (S (S k - 1)) with (S k) by lia. reflexivity.
Qed.

(** X2: the first task that raises decides the run: a [ValueError] of any
    origin ends [get_records] normally with the records accumulated so
    far, any other exception propagates out of [get_records]; either way
    no further task is created. *)
Theorem task_exception_outcome (k fuel : nat) (w0 w w1 : world) (pn c : nat)
      (ts : list (nat * status)) (e : exn) :
  crawl_loop remote_page remote_xls k 0 0 [] (reset_records w0) =
    (inr (StillRunning pn c ts), w) ->
  download_and_analyze_report remote_page remote_xls (snd (next_page pn (S c))) (S c)
    (add_event (add_event w (TaskCreated (S c))) (TaskStarted (S c))) = (inl e, w1) ->
  get_records remote_page remote_xls (k + S fuel) w0 =
    (match e with ValueError _ => inr (Some (records w1)) | _ => inl e end,
     add_event w1 (TaskFinished (S c))).
Proof.
  intros Hk Ht.
  destruct (crawl_loop_still _ _ _ _ _ _ _ _ _ _ _ (Forall_nil_2 _) Hk) as [Hd Hadd].
  rewrite get_records_spec, (Hadd (S fuel)), (crawl_loop_S _ _ _ _ _ _ _ Hd).
  destruct (next_page pn (S c)) as [pn1 param] eqn:Enp. cbn in Ht.
  rewrite run_task_spec, Ht. cbn.
  destruct e as [m|name]; reflexivity.
Qed.

End LoopProps.

Lemma crawl_counters_witness :
  crawl_loop listing3 (bulletins3 no_target_sheet) 2 0 0 [] empty_world =
    (inr (StillRunning 1 2 [(1, Done); (2, Done)]),
     snd (crawl_loop listing3 (bulletins3 no_target_sheet) 2 0 0 [] empty_world)) /\
  next_page 1 3 = (2, "page-2").
Proof.
  assert (E : crawl_loop listing3 (bulletins3 no_target_sheet) 2 0 0 [] empty_world =
                (inr (StillRunning 1 2 [(1, Done); (2, Done)]),
                 snd (crawl_loop listing3 (bulletins3 no_target_sheet) 2 0 0 [] empty_world)))
    by (vm_compute; reflexivity).
  split; [exact E|].
  exact (proj2 (proj2 (proj2 (crawl_counters listing3 (bulletins3 no_target_sheet) 2
                                empty_world _ 1 2 [(1, Done); (2, Done)] E)))).
Defined.

(** A server that answers every spreadsheet link with a non-200 status:
    the [AssertionError] of the first download ends the run with an
    error. *)
Lemma task_exception_outcome_witness :
  get_records listing3 (fun _ => None) (0 + S 0) empty_world =
    (inl (OtherError "AssertionError"),
     add_event (snd (download_and_analyze_report listing3 (fun _ => None) "" 1
                      (add_event (add_event (reset_records empty_world) (TaskCreated 1))
                                 (TaskStarted 1))))
               (TaskFinished 1)).
Proof.
  apply (task_exception_outcome listing3 (fun _ => None) 0 0 empty_world
           (reset_records empty_world)
           (snd (download_and_analyze_report listing3 (fun _ => None) "" 1
                   (add_event (add_event (reset_records empty_world) (TaskCreated 1))
                              (TaskStarted 1))))
           0 0 [] (OtherError "AssertionError")).
  - reflexivity.
  - vm_compute. reflexivity.
Defined.

(** ** Network failures, cached spreadsheets and the elements of a page *)

Section PageProps.
Variable remote_page : option string -> option html.
Variable remote_xls : string -> option xls.

(** X4: a non-200 answer makes [get_html_page] (on a cache miss) and
    [download_xls] raise [AssertionError] without writing the page cache,
    the reports folder or the records; the response is closed and the
    slot of the call's semaphore released all the same. *)
Theorem non_200_writes_nothing (param : string) (n : nat) (link path : string) (w : world) :
  (html_cache w !! n = None -> remote_page (page_params param) = None ->
   let '(r, w') := get_html_page remote_page param n w in
   r = inl (OtherError "AssertionError") /\
   html_cache w' = html_cache w /\ reports w' = reports w /\ records w' = records w /\
   trace w' = trace w ++ [SemCreated (sem_next w) 5; SemAcquired (sem_next w);
                          NetBegin (TPage (page_params param)); NetEnd (TPage (page_params param));
                          SemReleased (sem_next w)]) /\
  (remote_xls link = None ->
   let '(r, w') := download_xls remote_xls link path w in
   r = inl (OtherError "AssertionError") /\
   html_cache w' = html_cache w /\ reports w' = reports w /\ records w' = records w /\
   trace w' = trace w ++ [SemCreated (sem_next w) 5; SemAcquired (sem_next w);
                          NetBegin (TXls link); NetEnd (TXls link); SemReleased (sem_next w)]).
Proof.
  split.
  - intros Hc Hr. rewrite (get_html_page_fetch _ _ _ _ Hc), Hr.
    repeat split; reflexivity.
  - intros Hr. rewrite download_xls_spec, Hr. repeat split; reflexivity.
Qed.

Lemma process_element_cached (el : div) (w w' : world) (r : exn + unit) :
  (forall tag date, d_anchor el = Some tag -> d_span el = Some date ->
     is_Some (reports w !! (date +:+ ".xls"))) ->
  process_element remote_xls el w = (r, w') ->
  trace w' = trace w /\ sem_next w' = sem_next w /\ html_cache w' = html_cache w /\
  (r = inr tt -> reports w' = reports w).
Proof.
  intros Hcached H. unfold process_element in H.
  destruct (d_anchor el) as [tag|] eqn:Ha; [|inversion H; subst; repeat split].
  destruct (tag_contains text_to_search tag); [|inversion H; subst; repeat split].
  destruct (d_span el) as [date|] eqn:Hs; [|inversion H; subst; repeat split].
  destruct (Hcached tag date eq_refl eq_refl) as [x Hp].
  set (path := date +:+ ".xls") in *.
  mrun. rewrite Hp in H. cbn in H. rewrite Hp in H.
  destruct x as [sh|]; cbn in H; [|inversion H; subst; repeat split].
  destruct (truthy (get_market_price_sheet sh target_row target_col)); cbn in H.
  - destruct (strptime_dmy date) as [d|]; cbn in H; [|inversion H; subst; repeat split].
    unfold append_record in H. mrun. inversion H; subst. repeat split.
  - rewrite Hp in H. cbn in H. inversion H; subst. repeat split. discriminate.
Qed.

Lemma process_elements_cached (es : list div) (w w' : world) (r : exn + unit) :
  (forall el tag date, In el es -> d_anchor el = Some tag -> d_span el = Some date ->
     is_Some (reports w !! (date +:+ ".xls"))) ->
  process_elements remote_xls es w = (r, w') ->
  trace w' = trace w /\ sem_next w' = sem_next w /\ html_cache w' = html_cache w /\
  (r = inr tt -> reports w' = reports w).
Proof.
  revert w. induction es as [|e es IH]; intros w Hc H; cbn in H.
  - inversion H; subst. repeat split.
  - unfold bind in H. destruct (process_element remote_xls e w) as [r1 w1] eqn:E.
    destruct (process_element_cached e w w1 r1 (fun tag date => Hc e tag date (or_introl eq_refl)) E)
      as (T1 & S1 & C1 & R1).
    destruct r1 as [ex|[]].
    + inversion H; subst. repeat split; assumption.
    + assert (Hc1 : forall el tag date, In el es -> d_anchor el = Some tag ->
                      d_span el = Some date -> is_Some (reports w1 !! (date +:+ ".xls"))).
      { intros el tag date I Ha Hs. rewrite (R1 eq_refl). exact (Hc el tag date (or_intror I) Ha Hs). }
      destruct (IH w1 Hc1 H) as (T2 & S2 & C2 & R2).
      split; [congruence|]. split; [congruence|]. split; [congruence|].
      intros Er. rewrite (R2 Er). exact (R1 eq_refl).
Qed.

(** X5: a spreadsheet already in the reports folder is never downloaded
    again: when every block of a page that has an anchor and a span finds
    its [{date}.xls] on disk, processing the page's blocks performs no
    network operation, creates no semaphore and leaves the page cache as
    it is, whatever the outcome. *)
Theorem cached_reports_no_network (es : list div) (w w' : world) (r : exn + unit) :
  (forall el tag date, In el es -> d_anchor el = Some tag -> d_span el = Some date ->
     is_Some (reports w !! (date +:+ ".xls"))) ->
  process_elements remote_xls es w = (r, w') ->
  trace w' = trace w /\ sem_next w' = sem_next w /\ html_cache w' = html_cache w.
Proof.
  intros Hc H. destruct (process_elements_cached es w w' r Hc H) as (T & S & C & _).
  split; [exact T | split; [exact S | exact C]].
Qed.

(** X6: the blocks of a page are processed in document order and the
    first one that raises ends the page: the blocks after it are not
    looked at, the failing block adds no record, and the records that the
    blocks before it appended stay in [records] (which only grew by
    well-formed records before it). *)
Theorem page_stops_at_first_error (pre post : list div) (el : div) (w w1 w2 : world) (e : exn) :
  process_elements remote_xls pre w = (inr tt, w1) ->
  process_element remote_xls el w1 = (inl e, w2) ->
  process_elements remote_xls (pre ++ el :: post) w = (inl e, w2) /\
  records w2 = records w1 /\
  exists new, records w2 = records w ++ new /\ Forall record_wf new.
Proof.
  intros H1 H2. split.
  - rewrite process_elements_app, H1. cbn. unfold bind. rewrite H2. reflexivity.
  - assert (E : records w2 = records w1) by exact (process_element_raise_records _ _ _ _ _ H2).
    split; [exact E|]. rewrite E. exact (process_elements_records _ _ _ _ _ H1).
Qed.

(** X7: a bulletin whose date does not parse raises [ValueError] only
    after its spreadsheet has been found with a truthy price: unlike an
    absent price, the spreadsheet stays in the reports folder (downloaded
    or not) and no record is added. *)
Theorem bad_date_keeps_report (el : div) (tag : anchor) (date : string) (sh : sheet)
      (w : world) :
  d_anchor el = Some tag ->
  tag_contains text_to_search tag = true ->
  d_span el = Some date ->
  (reports w !! (date +:+ ".xls") = Some (XlsBook sh) \/
   (reports w !! (date +:+ ".xls") = None /\
    remote_xls (schema +:+ domain +:+ a_href tag) = Some (XlsBook sh))) ->
  truthy (get_market_price_sheet sh target_row target_col) = true ->
  strptime_dmy date = None ->
  let '(r, w') := process_element remote_xls el w in
  (exists m, r = inl (ValueError m)) /\
  reports w' !! (date +:+ ".xls") = Some (XlsBook sh) /\
  records w' = records w.
Proof.
  intros Ha Hc Hs Hfile Ht Hd. unfold process_element.
  rewrite Ha, Hc, Hs.
  set (path := date +:+ ".xls") in *.
  mrun.
  destruct Hfile as [Hp | [Hp Hx]].
  - rewrite Hp. cbn. rewrite Hp. cbn. rewrite Ht. cbn. rewrite Hd. cbn.
    split; [eexists; reflexivity | split; [exact Hp | reflexivity]].
  - rewrite Hp. cbn. rewrite download_xls_spec, Hx. cbn.
    rewrite lookup_insert_eq. cbn. rewrite Ht. cbn. rewrite Hd. cbn.
    split; [eexists; reflexivity | split; [apply lookup_insert_eq | reflexivity]].
Qed.

End PageProps.

Lemma non_200_writes_nothing_witness :
  (let '(r, w') := get_html_page (fun _ => None) "" 1 empty_world in
   r = inl (OtherError "AssertionError") /\
   html_cache w' = html_cache empty_world /\ reports w' = reports empty_world /\
   records w' = records empty_world /\
   trace w' = trace empty_world ++ [SemCreated 0 5; SemAcquired 0; NetBegin (TPage None);
                                    NetEnd (TPage None); SemReleased 0]) /\
  (let '(r, w') := download_xls (fun _ => None) (bulletin_link "10.01.2023") "10.01.2023.xls"
                     empty_world in
   r = inl (OtherError "AssertionError") /\
   html_cache w' = html_cache empty_world /\ reports w' = reports empty_world /\
   records w' = records empty_world /\
   trace w' = trace empty_world ++ [SemCreated 0 5; SemAcquired 0;
                                    NetBegin (TXls (bulletin_link "10.01.2023"));
                                    NetEnd (TXls (bulletin_link "10.01.2023")); SemReleased 0]).
Proof.
  destruct (non_200_writes_nothing (fun _ => None) (fun _ => None) "" 1
              (bulletin_link "10.01.2023") "10.01.2023.xls" empty_world) as [P1 P2].
  split; [apply P1; reflexivity | apply P2; reflexivity].
Defined.

Lemma cached_reports_no_network_witness :
  trace (snd (process_elements good_xls [bulletin "10.01.2023"] (cached_world "10.01.2023"))) =
    trace (cached_world "10.01.2023").
Proof.
  refine (proj1 (cached_reports_no_network good_xls [bulletin "10.01.2023"]
                   (cached_world "10.01.2023")
                   (snd (process_elements good_xls [bulletin "10.01.2023"]
                           (cached_world "10.01.2023")))
                   (fst (process_elements good_xls [bulletin "10.01.2023"]
                           (cached_world "10.01.2023"))) _ _)).
  - intros el tag date [<- | []] Ha Hs. injection Ha as <-. injection Hs as <-.
    vm_compute. eexists. reflexivity.
  - vm_compute. reflexivity.
Defined.

(** The second block has no anchor: the page ends with [TypeError] after
    the record of the first block, which stays, and the third block is not
    looked at. *)
Lemma page_stops_at_first_error_witness :
  process_elements good_xls
    ([bulletin "10.01.2023"] ++ mk_div [class_to_search] None None :: [bulletin "09.01.2023"])
    (cached_world "10.01.2023") =
  (inl (OtherError "TypeError"),
   snd (process_elements good_xls [bulletin "10.01.2023"] (cached_world "10.01.2023"))) /\
  records (snd (process_elements good_xls [bulletin "10.01.2023"] (cached_world "10.01.2023"))) =
    [mk_record (2023, 1, 10) (PStr "42.5") ("10.01.2023" +:+ ".xls")].
Proof.
  destruct (page_stops_at_first_error good_xls [bulletin "10.01.2023"]
              [bulletin "09.01.2023"] (mk_div [class_to_search] None None)
              (cached_world "10.01.2023")
              (snd (process_elements good_xls [bulletin "10.01.2023"] (cached_world "10.01.2023")))
              (snd (process_elements good_xls [bulletin "10.01.2023"] (cached_world "10.01.2023")))
              (OtherError "TypeError")) as (E & _ & _).
  - vm_compute. reflexivity.
  - reflexivity.
  - split; [exact E | vm_compute; reflexivity].
Defined.

Lemma bad_date_keeps_report_witness :
  let '(r, w') := process_element good_xls (bulletin "31.02.2023") empty_world in
  (exists m, r = inl (ValueError m)) /\
  reports w' !! ("31.02.2023" +:+ ".xls") = Some (XlsBook (price_sheet (PStr "42.5"))) /\
  records w' = records empty_world.
Proof.
  apply (bad_date_keeps_report good_xls (bulletin "31.02.2023")
           (mk_anchor ("/upload/" +:+ "31.02.2023" +:+ ".xls") [NText text_to_search])
           "31.02.2023" (price_sheet (PStr "42.5")) empty_world).
  - reflexivity.
  - vm_compute. reflexivity.
  - reflexivity.
  - right. split; reflexivity.
  - vm_compute. reflexivity.
  - vm_compute. reflexivity.
Defined.

(** ** A run over a warm cache *)

Lemma site_cached_same (lo hi : nat) (w w' : world) :
  html_cache w' = html_cache w -> reports w' = reports w ->
  site_cached lo hi w -> site_cached lo hi w'.
Proof.
  intros C R P n Hn. destruct (P n Hn) as (d & Hd & F).
  exists d. rewrite C, R. split; [exact Hd | exact F].
Qed.

Section WarmCache.
Variable remote_page : option string -> option html.
Variable remote_xls : string -> option xls.

Lemma task_cached (param : string) (count : nat) (w w' : world) (r : exn + unit) :
  site_cached count count w ->
  download_and_analyze_report remote_page remote_xls param count w = (r, w') ->
  trace w' = trace w /\ sem_next w' = sem_next w /\ html_cache w' = html_cache w /\
  (r = inr tt -> reports w' = reports w).
Proof.
  intros P H. destruct (P count ltac:(lia)) as (d & Hd & F).
  unfold download_and_analyze_report in H. unfold bind at 1 in H.
  rewrite (get_html_page_cached _ _ _ _ _ Hd) in H.
  exact (process_elements_cached remote_xls _ _ _ _ (fun el tag date I => F el tag date I) H).
Qed.

Lemma crawl_loop_warm (fuel page_num count : nat) (ts : list (nat * status))
      (w w' : world) (r : exn + loop_result) :
  Forall task_done ts -> site_cached (S count) (count + fuel) w ->
  crawl_loop remote_page remote_xls fuel page_num count ts w = (r, w') ->
  exists tr, trace w' = trace w ++ tr /\ Forall (fun ev => task_event ev = true) tr /\
             sem_next w' = sem_next w.
Proof.
  revert page_num count ts w. induction fuel as [|fuel IH]; intros pn c ts w Hd Hs H.
  - inversion H; subst. exists []. rewrite app_nil_r.
    split; [reflexivity | split; [constructor | reflexivity]].
  - rewrite (crawl_loop_S _ _ _ _ _ _ _ Hd) in H.
    destruct (next_page pn (S c)) as [pn' param].
    rewrite run_task_spec in H.
    destruct (download_and_analyze_report remote_page remote_xls param (S c)
                (add_event (add_event w (TaskCreated (S c))) (TaskStarted (S c))))
      as [r1 w1] eqn:E.
    assert (Hs1 : site_cached (S c) (S c)
                    (add_event (add_event w (TaskCreated (S c))) (TaskStarted (S c)))).
    { intros n Hn. apply (site_cached_same (S c) (c + S fuel) w);
        [reflexivity | reflexivity | exact Hs | lia]. }
    destruct (task_cached param (S c) _ _ _ Hs1 E) as (T & Sn & C & R).
    set (tr1 := [TaskCreated (S c); TaskStarted (S c); TaskFinished (S c)]).
    assert (T1 : trace (add_event w1 (TaskFinished (S c))) = trace w ++ tr1).
    { cbn. rewrite T. cbn. rewrite <- !app_assoc. reflexivity. }
    assert (F1 : Forall (fun ev => task_event ev = true) tr1) by (repeat constructor).
    assert (S1 : sem_next (add_event w1 (TaskFinished (S c))) = sem_next w) by (cbn; exact Sn).
    destruct r1 as [ex|[]]; cbn in H.
    + destruct ex as [m|name]; inversion H; subst; exists tr1;
        (split; [exact T1 | split; [exact F1 | exact S1]]).
    + assert (Hd' : Forall task_done (ts ++ [(S c, Done)])).
      { apply Forall_app_2; [exact Hd | constructor; [reflexivity | constructor]]. }
      assert (Hs' : site_cached (S (S c)) (S c + fuel) (add_event w1 (TaskFinished (S c)))).
      { intros n Hn. apply (site_cached_same (S c) (c + S fuel) w);
          [exact C | exact (R eq_refl) | exact Hs | lia]. }
      destruct (IH _ _ _ _ Hd' Hs' H) as (tr2 & T2 & F2 & S2).
      exists (tr1 ++ tr2). split; [rewrite T2, T1, app_assoc; reflexivity|].
      split; [apply Forall_app_2; assumption | congruence].
Qed.

(** X8: a run over a warm cache works offline: when the listing pages
    [1..fuel] are in the page cache and every bulletin block of those
    pages finds its spreadsheet in the reports folder, [fuel] iterations of
    [get_records] perform no network operation and create no semaphore;
    the only events of the run are task events. *)
Theorem warm_cache_run_offline (fuel : nat) (w0 wf : world) (r : exn + option (list record)) :
  site_cached 1 fuel w0 ->
  get_records remote_page remote_xls fuel w0 = (r, wf) ->
  exists tr, trace wf = trace w0 ++ tr /\ Forall (fun ev => task_event ev = true) tr /\
             sem_next wf = sem_next w0.
Proof.
  intros Hs H. rewrite get_records_spec in H.
  destruct (crawl_loop remote_page remote_xls fuel 0 0 [] (reset_records w0)) as [r1 w1] eqn:E.
  destruct (crawl_loop_warm _ _ _ _ _ _ _ (Forall_nil_2 _)
              (site_cached_same _ _ w0 (reset_records w0) eq_refl eq_refl Hs) E)
    as (tr & T & F & Sn).
  exists tr. destruct r1 as [e|[]]; inversion H; subst; split; try split; assumption.
Qed.

End WarmCache.

(** The world left by one cold run of [listing3]: pages 1..3 cached and
    the spreadsheets of pages 1 and 2 in the reports folder. *)
Lemma warm_cache_run_offline_witness :
  exists tr,
    trace (snd (get_records listing3 (bulletins3 (price_sheet (PStr "42.5"))) 2
                  (snd (get_records listing3 (bulletins3 no_target_sheet) 3 empty_world)))) =
      trace (snd (get_records listing3 (bulletins3 no_target_sheet) 3 empty_world)) ++ tr /\
    Forall (fun ev => task_event ev = true) tr /\
    sem_next (snd (get_records listing3 (bulletins3 (price_sheet (PStr "42.5"))) 2
                     (snd (get_records listing3 (bulletins3 no_target_sheet) 3 empty_world)))) =
      sem_next (snd (get_records listing3 (bulletins3 no_target_sheet) 3 empty_world)).
Proof.
  apply (warm_cache_run_offline listing3 (bulletins3 (price_sheet (PStr "42.5"))) 2
           (snd (get_records listing3 (bulletins3 no_target_sheet) 3 empty_world))
           (snd (get_records listing3 (bulletins3 (price_sheet (PStr "42.5"))) 2
                   (snd (get_records listing3 (bulletins3 no_target_sheet) 3 empty_world))))
           (fst (get_records listing3 (bulletins3 (price_sheet (PStr "42.5"))) 2
                   (snd (get_records listing3 (bulletins3 no_target_sheet) 3 empty_world))))).
  - intros n Hn. assert (n = 1 \/ n = 2) as [-> | ->] by lia;
      (eexists; split; [vm_compute; reflexivity|]);
      intros el tag date I Ha Hs; vm_compute in I; destruct I as [<- | []];
      vm_compute in Ha; vm_compute in Hs; injection Hs as <-; vm_compute; eexists; reflexivity.
  - vm_compute. reflexivity.
Defined.
